(** * Electionbot: the spreadsheet-backed election bot of [src/bot.py]

    A shallow embedding of the command handlers of the bot and of the part of
    the spreadsheet client they rely on, followed by the properties of the
    specification that concern them.

    Conventions.
    - A worksheet is a list of rows of cells, row 1 being the header row; the
      spreadsheet is a finite map from worksheet titles to worksheets.
    - A cell holds what the record reader of the spreadsheet client returns
      for it: an integer for a numeric cell, a string otherwise (the blank
      cell is the empty string); the program writes no fractional number.
      Reading all values gives the used range as a rectangle of strings.
    - A record is the Python [dict] built from the header row and a data row.
    - In the handlers the calls of the spreadsheet service succeed, so that
      [retry_api_call] is the call itself there; [retry_api_call] is modelled
      on its own, over what each call of its [func] does.
    - Python exceptions are values of [Exn]; every handler ends in the
      catch-all [except Exception] of the source, and what was written before
      the exception stays written.
    - Strings are strings of one-byte characters; [lower], [upper],
      [strip] and [isdigit] act on the ASCII letters, the ASCII white space
      and the ASCII digits.
    - [random.randint] draws from an entropy value handed to the handler.
    - The quotient [points / total * 100] of [poll] is an exact rational, and
      [{:.1f}] rounds it to the nearest tenth, halves to the even one. *)

From Stdlib Require Import Ascii String ZArith QArith Qround Qabs Lia Lqa.
From stdpp Require Import base tactics option list strings gmap pretty.

Local Open Scope Z_scope.
Local Open Scope string_scope.
Local Open Scope list_scope.

(** ** Python strings *)

Module PyStr.

Definition code (a : ascii) : N := N_of_ascii a.

(** [str.isspace] on the ASCII range: TAB..CR, FS..US and the space. *)
Definition is_space (a : ascii) : bool :=
  let n := code a in
  ((9 <=? n) && (n <=? 13) || (28 <=? n) && (n <=? 32))%N.

Definition lower_char (a : ascii) : ascii :=
  let n := code a in
  if ((65 <=? n) && (n <=? 90))%N then ascii_of_N (n + 32) else a.

Definition upper_char (a : ascii) : ascii :=
  let n := code a in
  if ((97 <=? n) && (n <=? 122))%N then ascii_of_N (n - 32) else a.

Fixpoint lower (s : string) : string :=
  match s with
  | EmptyString => EmptyString
  | String a s' => String (lower_char a) (lower s')
  end.

Fixpoint upper (s : string) : string :=
  match s with
  | EmptyString => EmptyString
  | String a s' => String (upper_char a) (upper s')
  end.

Fixpoint lstrip (s : string) : string :=
  match s with
  | EmptyString => EmptyString
  | String a s' => if is_space a then lstrip s' else s
  end.

(** [rstrip]: a character is kept when it, or something after it, is not
    white space. *)
Fixpoint rstrip (s : string) : string :=
  match s with
  | EmptyString => EmptyString
  | String a s' =>
      match rstrip s' with
      | EmptyString => if is_space a then EmptyString else String a EmptyString
      | r => String a r
      end
  end.

Definition strip (s : string) : string := rstrip (lstrip s).

(** [x in s] for a one-character [x]. *)
Fixpoint contains_char (c : ascii) (s : string) : bool :=
  match s with
  | EmptyString => false
  | String a s' => Ascii.eqb a c || contains_char c s'
  end.

(** [s.split(sep)] for a one-character separator: never empty. *)
Fixpoint split (sep : ascii) (s : string) : list string :=
  match s with
  | EmptyString => [EmptyString]
  | String a s' =>
      if Ascii.eqb a sep then EmptyString :: split sep s'
      else match split sep s' with
           | [] => [String a EmptyString]
           | p :: ps => String a p :: ps
           end
  end.

Fixpoint join (sep : string) (l : list string) : string :=
  match l with
  | [] => EmptyString
  | [x] => x
  | x :: l' => x +:+ sep +:+ join sep l'
  end.

(** [str(b)] for a Boolean. *)
Definition of_bool (b : bool) : string := if b then "True" else "False".

Definition digit (a : ascii) : option Z :=
  let n := code a in
  if ((48 <=? n) && (n <=? 57))%N then Some (Z.of_N n - 48) else None.

Fixpoint digits (acc : Z) (s : string) : option Z :=
  match s with
  | EmptyString => Some acc
  | String a s' =>
      match digit a with
      | Some d => digits (10 * acc + d) s'
      | None => None
      end
  end.

(** [int(s)] on decimal literals: optional sign, then at least one digit,
    white space around allowed; [None] stands for [ValueError]. *)
Definition to_int (s : string) : option Z :=
  match strip s with
  | EmptyString => None
  | String "-" EmptyString | String "+" EmptyString => None
  | String "-" s' => Z.opp <$> digits 0 s'
  | String "+" s' => digits 0 s'
  | s' => digits 0 s'
  end.

End PyStr.

(** ** Cells, rows, worksheets *)

Inductive Cell : Type :=
| VInt (z : Z)
| VStr (s : string).

Global Instance Cell_eq_dec : EqDecision Cell.
Proof. solve_decision. Defined.

Global Instance Cell_inhabited : Inhabited Cell := populate (VStr "").

(** [str(v)]. *)
Definition py_str (v : Cell) : string :=
  match v with
  | VInt z => pretty z
  | VStr s => s
  end.

Definition blank : Cell := VStr "".

Abbreviation Row := (list Cell).
Abbreviation Sheet := (list (list Cell)).
Abbreviation RowDict := (gmap string Cell).

(** [record.get(key, default)]. *)
Definition dict_get (r : RowDict) (key : string) (dflt : Cell) : Cell :=
  default dflt (r !! key).

(** [dict(zip(keys, row))]: a later duplicate of a key overrides. *)
Definition dict_zip (keys : list string) (row : Row) : RowDict :=
  foldl (λ d kv, <[kv.1 := kv.2]> d) ∅ (zip keys row).

Definition pad_to {A} (n : nat) (d : A) (l : list A) : list A :=
  l ++ replicate (n - length l) d.

Definition width (sh : Sheet) : nat := max_list (map length sh).

(** The client returns the used range as a rectangle: short rows are
    completed with blank cells. *)
Definition fill_gaps (sh : Sheet) : Sheet :=
  map (pad_to (width sh) blank) sh.

(** [sheet.get_all_values()]: the rectangle, every cell as a string. *)
Definition get_all_values (sh : Sheet) : list (list string) :=
  map (map py_str) (fill_gaps sh).

(** [sheet.get_all_records(expected_headers=keys)]: one [dict] per data row. *)
Definition get_all_records (keys : list string) (sh : Sheet) : list RowDict :=
  map (dict_zip keys) (tail (fill_gaps sh)).

(** [sheet.update_cell(i, j, v)], rows and columns counted from 1; the grid
    has blank cells wherever nothing was written. *)
Definition update_cell (i j : nat) (v : Cell) (sh : Sheet) : Sheet :=
  alter (λ r, <[pred j := v]> (pad_to j blank r)) (pred i) (pad_to i [] sh).

(** [sheet.update('A1', [values])]: overwrite row 1 from column A on. *)
Definition update_A1 (values : Row) (sh : Sheet) : Sheet :=
  match sh with
  | [] => [values]
  | r :: sh' => (values ++ drop (length values) r) :: sh'
  end.

(** [sheet.append_row(row)]: the row goes under the last one. *)
Definition append_row (row : Row) (sh : Sheet) : Sheet := sh ++ [row].

Definition cell_at (i j : nat) (sh : Sheet) : Cell :=
  default blank (sh !! pred i ≫= (.!! pred j)).

(** [sheet.acell(a1).value]: the text of the cell, [None] for a blank one. *)
Definition acell (a1 : nat * nat) (sh : Sheet) : option string :=
  match py_str (cell_at a1.1 a1.2 sh) with
  | EmptyString => None
  | s => Some s
  end.

Definition update_acell (a1 : nat * nat) (v : Cell) (sh : Sheet) : Sheet :=
  update_cell a1.1 a1.2 v sh.

(** The fixed cells of the Cycles worksheet, as (row, column). *)
Definition G2 : nat * nat := (2, 7)%nat.
Definition G3 : nat * nat := (3, 7)%nat.
Definition G4 : nat * nat := (4, 7)%nat.

(** ** Header cleaning of [get_all_records_safe] *)

(** First loop: strip every header, name the blank ones by position. *)
Fixpoint clean_headers_from (i : nat) (header_row : list string) : list string :=
  match header_row with
  | [] => []
  | header :: rest =>
      (if decide (PyStr.strip header = "") then "Column_" +:+ pretty (i + 1)%nat
       else PyStr.strip header) :: clean_headers_from (S i) rest
  end.

Definition cleaned_headers (header_row : list string) : list string :=
  clean_headers_from 0 header_row.

(** Second loop: number the repetitions of a name, counting in [header_count]. *)
Fixpoint dedup_headers (header_count : gmap string nat) (cleaned : list string)
  : list string :=
  match cleaned with
  | [] => []
  | header :: rest =>
      match header_count !! header with
      | Some n =>
          (header +:+ "_" +:+ pretty (n + 1)%nat)
            :: dedup_headers (<[header := (n + 1)%nat]> header_count) rest
      | None => header :: dedup_headers (<[header := 0%nat]> header_count) rest
      end
  end.

Definition final_headers (header_row : list string) : list string :=
  dedup_headers ∅ (cleaned_headers header_row).

(** ** The spreadsheet, and handlers as state-and-exception computations *)

Abbreviation World := (gmap string (list (list Cell))).

Inductive Exn : Type :=
  TypeError | AttributeError | KeyError | ValueError | ZeroDivisionError.

Inductive Outcome (A : Type) : Type :=
| Ok (a : A)
| Raised (e : Exn).
Arguments Ok {A} a.
Arguments Raised {A} e.

Global Instance Outcome_ret : MRet Outcome := λ A a, Ok a.
Global Instance Outcome_bind : MBind Outcome := λ A B f m,
  match m with
  | Ok a => f a
  | Raised e => Raised e
  end.

(** A computation reads and writes the spreadsheet; what it wrote before an
    exception stays written. *)
Definition Py (A : Type) : Type := World → Outcome A * World.

Global Instance Py_ret : MRet Py := λ A a w, (Ok a, w).
Global Instance Py_bind : MBind Py := λ A B f m w,
  match m w with
  | (Ok a, w') => f a w'
  | (Raised e, w') => (Raised e, w')
  end.

Definition lift {A} (o : Outcome A) : Py A := λ w, (o, w).

(** [get_sheet(sheet_name)]: the handle of a worksheet is its title; [None]
    when the spreadsheet has no such worksheet. *)
Definition get_sheet (sheet_name : string) (w : World) : option string :=
  match w !! sheet_name with
  | Some _ => Some sheet_name
  | None => None
  end.

(** Reading and writing through a handle. Handles come from [get_sheet] and
    worksheets are never removed, so the worksheet is there. *)
Definition ws_read (sheet : string) (w : World) : Sheet :=
  default [] (w !! sheet).

Definition ws_write (sheet : string) (f : Sheet → Sheet) : Py () :=
  λ w, (Ok (), alter f sheet w).

(** [get_all_records_safe(sheet)]: the records of the worksheet under the
    cleaned headers, which are written back when they differ from row 1. *)
Definition get_all_records_safe (sheet : string) : Py (list RowDict) := λ w,
  let all_values := get_all_values (ws_read sheet w) in
  if bool_decide (length all_values < 2)%nat then (Ok [], w)
  else
    let header_row := hd [] all_values in
    let final := final_headers header_row in
    let w' := if bool_decide (final ≠ header_row)
              then alter (update_A1 (VStr <$> final)) sheet w else w in
    (Ok (get_all_records final (ws_read sheet w')), w').

(** ** Python operators on cells *)

(** [v < n] for an integer [n]. *)
Definition py_lt_int (v : Cell) (n : Z) : Outcome bool :=
  match v with
  | VInt z => Ok (bool_decide (z < n))
  | VStr _ => Raised TypeError
  end.

(** [v + n] and [v - n] for an integer [n]. *)
Definition py_add_int (v : Cell) (n : Z) : Outcome Z :=
  match v with
  | VInt z => Ok (z + n)
  | VStr _ => Raised TypeError
  end.

Definition py_sub_int (v : Cell) (n : Z) : Outcome Z :=
  match v with
  | VInt z => Ok (z - n)
  | VStr _ => Raised TypeError
  end.

(** [max(v, n)] for an integer [n]. *)
Definition py_max_int (v : Cell) (n : Z) : Outcome Z :=
  match v with
  | VInt z => Ok (Z.max z n)
  | VStr _ => Raised TypeError
  end.

(** [v / n] for an integer [n], as an exact quotient. *)
Definition py_div_int (v : Cell) (n : Z) : Outcome Q :=
  match v with
  | VInt z =>
      if bool_decide (n = 0) then Raised ZeroDivisionError
      else Ok (inject_Z z / inject_Z n)%Q
  | VStr _ => Raised TypeError
  end.

(** [a > b]: integers by value, strings by code points, nothing else. *)
Definition py_gt (a b : Cell) : Outcome bool :=
  match a, b with
  | VInt x, VInt y => Ok (bool_decide (y < x))
  | VStr x, VStr y => Ok (String.ltb y x)
  | _, _ => Raised TypeError
  end.

(** [v.lower()]. *)
Definition py_lower (v : Cell) : Outcome string :=
  match v with
  | VStr s => Ok (PyStr.lower s)
  | VInt _ => Raised AttributeError
  end.

(** [d[key]]. *)
Definition dict_item (d : RowDict) (key : string) : Outcome Cell :=
  match d !! key with
  | Some v => Ok v
  | None => Raised KeyError
  end.

(** [sum(...)] of cells, from the integer 0: the addition of an integer and
    a cell commutes when the cell is an integer and raises when it is not. *)
Fixpoint py_sum_from (acc : Z) (vs : list Cell) : Outcome Z :=
  match vs with
  | [] => Ok acc
  | v :: vs' => acc' ← py_add_int v acc; py_sum_from acc' vs'
  end.

Definition py_sum (vs : list Cell) : Outcome Z := py_sum_from 0 vs.

(** [[x for x in l if f x]] where the test may raise. *)
Fixpoint py_filter {A} (f : A → Outcome bool) (l : list A) : Outcome (list A) :=
  match l with
  | [] => Ok []
  | x :: l' =>
      b ← f x;
      r ← py_filter f l';
      Ok (if b : bool then x :: r else r)
  end.

(** [[f x for x in l]] where [f] may raise. *)
Fixpoint py_map {A B} (f : A → Outcome B) (l : list A) : Outcome (list B) :=
  match l with
  | [] => Ok []
  | x :: l' => y ← f x; r ← py_map f l'; Ok (y :: r)
  end.

(** [random.randint(a, b)], drawn from an entropy value. *)
Definition randint (a b entropy : Z) : Z := a + entropy `mod` (b - a + 1).

(** ** Cycle state *)

Record Cycle : Type := mkCycle {
  year : Z;
  signups_open : bool;
  phase : string
}.

Global Instance Cycle_eq_dec : EqDecision Cycle.
Proof. solve_decision. Defined.

(** [get_current_cycle()]: [None] without the Cycles worksheet, and when any
    of the three reads raises ([int] of a non-number, [.lower()] of the
    [None] of a blank cell). *)
Definition get_current_cycle (w : World) : option Cycle :=
  match get_sheet "Cycles" w with
  | None => None
  | Some cycles_sheet =>
      let sh := ws_read cycles_sheet w in
      y ← match acell G2 sh with
          | None => Some 1990
          | Some v => PyStr.to_int v
          end;
      g3 ← acell G3 sh;
      Some {| year := y;
              signups_open := bool_decide (PyStr.lower g3 = "true");
              phase := default "Primary" (acell G4 sh) |}
  end.

(** [update_signups_status(status)]. *)
Definition update_signups_status (status : bool) : Py () := λ w,
  match get_sheet "Cycles" w with
  | Some cycles_sheet =>
      ws_write cycles_sheet
        (update_acell G3 (VStr (PyStr.upper (PyStr.of_bool status)))) w
  | None => (Ok (), w)
  end.

(** [get_eligible_seats(year, state)]. *)
Definition get_eligible_seats (year : Z) (state : string) : Py (list RowDict) :=
  λ w,
  match get_sheet "Cycles" w with
  | None => (Ok [], w)
  | Some cycles_sheet =>
      (records ← get_all_records_safe cycles_sheet;
       let eligible_seats :=
         filter (λ r, dict_get r "Year" (VInt 0) = VInt year) records in
       if bool_decide (state ≠ "") then
         lift (py_filter
                 (λ r, s ← py_lower (dict_get r "State" blank);
                       Ok (bool_decide (s = PyStr.lower state)))
                 eligible_seats)
       else mret eligible_seats) w
  end.

(** [add_signup(user_id, name, seat_id, party, state, office)]: the row has
    ten cells and no cell for the state. *)
Definition signup_row (user_id : Z) (name seat_id party phase : string)
    (office : Cell) : Row :=
  [VInt user_id; VStr name; VStr seat_id; VStr party; VStr phase; office;
   VInt 0; VInt 100; VInt 0; VStr ""].

Definition add_signup (user_id : Z) (name seat_id party state : string)
    (office : Cell) : Py () := λ w,
  match get_sheet "All Signups" w with
  | None => (Ok (), w)
  | Some signups_sheet =>
      match get_current_cycle w with
      | None => (Ok (), w)
      | Some cycle =>
          ws_write signups_sheet
            (append_row
               (signup_row user_id name seat_id party (phase cycle) office)) w
      end
  end.

(** ** Replies *)

(** The seat selection view: the seats it was built from, and one button
    (label, custom id) for each of the first 25. *)
Record SeatView : Type := mkSeatView {
  view_seats : list RowDict;
  view_buttons : list (string * Cell)
}.

Inductive Reply : Type :=
| Say (content : string)
| SayWithView (content : string) (view : SeatView).

Definition nl : string := String (ascii_of_nat 10) EmptyString.

(** The [try: ... except Exception:] around every handler. *)
Definition handle (body : Py Reply) (apology : string) (w : World)
  : Reply * World :=
  match body w with
  | (Ok r, w') => (r, w')
  | (Raised _, w') => (Say apology, w')
  end.

(** A computation that only looks at the spreadsheet. *)
Definition ask {A} (f : World → A) : Py A := λ w, (Ok (f w), w).

Definition current_cycle : Py (option Cycle) := ask get_current_cycle.

Definition sheet_named (sheet_name : string) : Py (option string) :=
  ask (get_sheet sheet_name).

(** ** signup *)

(** [str(record.get("User ID", "")) == user_id_str]. *)
Definition is_user (user_id_str : string) (record : RowDict) : bool :=
  bool_decide (py_str (dict_get record "User ID" blank) = user_id_str).

(** [record.get("Winner", "") in statuses]. *)
Definition winner_in (statuses : list string) (record : RowDict) : bool :=
  bool_decide (dict_get record "Winner" blank ∈ map VStr statuses).

Definition seat_label (seat : RowDict) : Outcome string :=
  seat_id ← dict_item seat "Seat ID";
  office ← dict_item seat "Office";
  Ok (py_str seat_id +:+ " (" +:+ py_str office +:+ ")").

Definition seat_button (seat : RowDict) : Outcome (string * Cell) :=
  label ← seat_label seat;
  custom_id ← dict_item seat "Seat ID";
  Ok (label, custom_id).

Definition signup_body (user_id : Z) (state name party : string) : Py Reply :=
  signups_sheet ← sheet_named "All Signups";
  winners_sheet ← sheet_named "All Winners";
  match signups_sheet with
  | None => mret (Say "Error accessing signups data.")
  | Some signups_sheet =>
      let user_id_str := pretty user_id in
      signups_records ← get_all_records_safe signups_sheet;
      if existsb (λ record, is_user user_id_str record
                            && negb (winner_in ["Withdrawn"; "Loser"] record))
           signups_records
      then mret (Say "You are already signed up! Use `/withdraw` to cancel your current candidacy.")
      else
        winners_records ← match winners_sheet with
                          | Some winners_sheet => get_all_records_safe winners_sheet
                          | None => mret []
                          end;
        if existsb (is_user user_id_str) winners_records
        then mret (Say "You already have an active candidacy in the current election cycle!")
        else
          cycle ← current_cycle;
          match cycle with
          | None => mret (Say "Error accessing cycle data.")
          | Some cycle =>
              if negb (signups_open cycle) then mret (Say "Signups are closed!")
              else
                seats ← get_eligible_seats (year cycle) state;
                match seats with
                | [] => mret (Say ("No eligible seats for " +:+ state +:+ " in "
                                   +:+ pretty (year cycle) +:+ "."))
                | _ =>
                    seat_options ← lift (py_map seat_label seats);
                    buttons ← lift (py_map seat_button (take 25 seats));
                    mret (SayWithView
                            ("Available seats in " +:+ state +:+ ":" +:+ nl
                             +:+ PyStr.join nl seat_options +:+ nl
                             +:+ "Please click the button for the seat you want to run for:")
                            {| view_seats := seats; view_buttons := buttons |})
                end
          end
  end.

Definition signup (user_id : Z) (state name party : string)
  : World → Reply * World :=
  handle (signup_body user_id state name party)
    "An error occurred during signup. Please try again or contact an admin.".

(** The button callback of the view made by [signup]; [signups_sheet] is the
    handle that [signup] obtained, [seat_id] the custom id of the button. *)
Definition seat_callback_body (signups_sheet : string) (user_id : Z)
    (state name party : string) (view : SeatView) (seat_id : string)
  : Py Reply :=
  match List.find (λ s, bool_decide (dict_get s "Seat ID" blank = VStr seat_id))
          (view_seats view) with
  | None => mret (Say "Invalid seat selection!")
  | Some selected_seat =>
      let user_id_str := pretty user_id in
      signups_records ← get_all_records_safe signups_sheet;
      winners_sheet ← sheet_named "All Winners";
      winners_records ← match winners_sheet with
                        | Some winners_sheet => get_all_records_safe winners_sheet
                        | None => mret []
                        end;
      if existsb (λ record, is_user user_id_str record
                            && negb (winner_in ["Withdrawn"; "Loser"] record))
           signups_records
      then mret (Say "You are already signed up for another race!")
      else if existsb (is_user user_id_str) winners_records
      then mret (Say "You already have an active candidacy in the Winners sheet!")
      else
        office ← lift (dict_item selected_seat "Office");
        add_signup user_id name seat_id party state office;;
        mret (Say (name +:+ " signed up for " +:+ seat_id +:+ " ("
                   +:+ py_str office +:+ ") in " +:+ state +:+ " as "
                   +:+ party +:+ "!"))
  end.

Definition seat_callback (signups_sheet : string) (user_id : Z)
    (state name party : string) (view : SeatView) (seat_id : string)
  : World → Reply * World :=
  handle (seat_callback_body signups_sheet user_id state name party view seat_id)
    "An error occurred during seat selection. Please try again.".

(** ** rally and canvassing *)

(** The worksheet the phase selects. *)
Definition sheet_for_phase (cycle : Cycle) (w : World) : option string :=
  if bool_decide (phase cycle = "Primary") then get_sheet "All Signups" w
  else get_sheet "All Winners" w.

(** The test of the scan: a record of the user that is not withdrawn. *)
Definition signed_up (user_id : Z) (record : RowDict) : bool :=
  is_user (pretty user_id) record
  && negb (bool_decide (dict_get record "Winner" blank = VStr "Withdrawn")).

(** What [rally] and [canvassing] do with the record found in row [i]; they
    differ in the cost, the range of the draw and the verb of the message. *)
Definition perform (sheet : string) (cost lo hi : Z) (verb : string)
    (entropy : Z) (i : nat) (record : RowDict) : Py Reply :=
  low ← lift (py_lt_int (dict_get record "Stamina" (VInt 0)) cost);
  if low : bool then
    have ← lift (py_max_int (dict_get record "Stamina" (VInt 0)) 0);
    mret (Say ("Not enough stamina! Need " +:+ pretty cost +:+ ", have "
               +:+ pretty have +:+ "."))
  else
    let points := randint lo hi entropy in
    left ← lift (py_sub_int (dict_get record "Stamina" (VInt 0)) cost);
    let stamina := Z.max left 0 in
    new_points ← lift (py_add_int (dict_get record "Points" (VInt 0)) points);
    ws_write sheet (update_cell i 8 (VInt stamina));;
    ws_write sheet (update_cell i 9 (VInt new_points));;
    mret (Say (py_str (dict_get record "Name" blank) +:+ " " +:+ verb
               +:+ " and gained " +:+ pretty points
               +:+ " points! Stamina: " +:+ pretty stamina)).

(** The scan of the records, row numbers counted from [i]. *)
Fixpoint action_scan (sheet : string) (user_id : Z) (cost lo hi : Z)
    (verb : string) (entropy : Z) (i : nat) (records : list RowDict)
  : Py Reply :=
  match records with
  | [] => mret (Say "You are not signed up or have withdrawn.")
  | record :: rest =>
      if signed_up user_id record
      then perform sheet cost lo hi verb entropy i record
      else action_scan sheet user_id cost lo hi verb entropy (S i) rest
  end.

Definition action_body (user_id : Z) (cost lo hi : Z) (verb : string)
    (entropy : Z) : Py Reply :=
  cycle ← current_cycle;
  match cycle with
  | None => mret (Say "Error accessing cycle data.")
  | Some cycle =>
      sheet ← ask (sheet_for_phase cycle);
      match sheet with
      | None => mret (Say "Error accessing data sheet.")
      | Some sheet =>
          records ← get_all_records_safe sheet;
          action_scan sheet user_id cost lo hi verb entropy 2 records
      end
  end.

Definition rally (user_id : Z) (entropy : Z) : World → Reply * World :=
  handle (action_body user_id 10 5 15 "rallied" entropy)
    "An error occurred during rally. Please try again or contact an admin.".

Definition canvassing (user_id : Z) (entropy : Z) : World → Reply * World :=
  handle (action_body user_id 5 3 10 "went canvassing" entropy)
    "An error occurred during canvassing. Please try again or contact an admin.".

(** ** poll *)

(** Rounding to the nearest integer, halves to the even one. *)
Definition round_half_even (q : Q) : Z :=
  let f := Qfloor q in
  match (q - inject_Z f ?= 1 # 2)%Q with
  | Lt => f
  | Gt => f + 1
  | Eq => if Z.even f then f else f + 1
  end.

(** The number of tenths that [{q:.1f}] shows. *)
Definition tenths (q : Q) : Z := round_half_even (q * 10)%Q.

(** [f"{q:.1f}"]. *)
Definition format_1f (q : Q) : string :=
  let t := Z.abs (tenths q) in
  (match (q ?= 0)%Q with Lt => "-" | _ => "" end)
    +:+ pretty (t `div` 10) +:+ "." +:+ pretty (t `mod` 10).

(** [(c.get("Points", 0) / total_points) * 100]. *)
Definition percentage (total_points : Z) (c : RowDict) : Outcome Q :=
  share ← py_div_int (dict_get c "Points" (VInt 0)) total_points;
  Ok (share * 100)%Q.

(** One line of the results, for a candidate and the percentage. *)
Definition line_text (c : RowDict) (pct : Q) : string :=
  py_str (dict_get c "Name" blank) +:+ " ("
  +:+ py_str (dict_get c "Party" blank) +:+ "): "
  +:+ format_1f pct +:+ "%" +:+ nl.

Definition poll_line (total_points : Z) (c : RowDict) : Outcome string :=
  pct ← percentage total_points c;
  Ok (line_text c pct).

Definition in_phase (cycle : Cycle) (r : RowDict) : bool :=
  bool_decide (dict_get r "Phase" blank = VStr (phase cycle))
  && negb (bool_decide (dict_get r "Winner" blank = VStr "Withdrawn")).

Definition total_of (candidates : list RowDict) : Outcome Z :=
  py_sum (map (λ c, dict_get c "Points" (VInt 0)) candidates).

Definition poll_body (scope : string) : Py Reply :=
  cycle ← current_cycle;
  match cycle with
  | None => mret (Say "Error accessing cycle data.")
  | Some cycle =>
      sheet ← ask (sheet_for_phase cycle);
      match sheet with
      | None => mret (Say "Error accessing data sheet.")
      | Some sheet =>
          records ← get_all_records_safe sheet;
          if bool_decide (PyStr.lower scope = "nation") then
            let candidates := List.filter (in_phase cycle) records in
            match candidates with
            | [] => mret (Say "No candidates to poll.")
            | _ =>
                total_points ← lift (total_of candidates);
                if bool_decide (total_points = 0)
                then mret (Say "No polling data available.")
                else
                  lines ← lift (py_map (poll_line total_points) candidates);
                  mret (Say ("National Poll Results:" +:+ nl
                             +:+ String.concat "" lines))
            end
          else
            candidates ←
              lift (py_filter
                      (λ r, s ← py_lower (dict_get r "State" blank);
                            Ok (bool_decide (s = PyStr.lower scope)
                                && in_phase cycle r))
                      records);
            match candidates with
            | [] => mret (Say ("No candidates in " +:+ scope +:+ " to poll."))
            | _ =>
                total_points ← lift (total_of candidates);
                if bool_decide (total_points = 0)
                then mret (Say ("No polling data available in " +:+ scope +:+ "."))
                else
                  lines ← lift (py_map (poll_line total_points) candidates);
                  mret (Say ("Poll Results in " +:+ scope +:+ ":" +:+ nl
                             +:+ String.concat "" lines))
            end
      end
  end.

Definition poll (scope : string) : World → Reply * World :=
  handle (poll_body scope)
    "An error occurred while polling. Please try again or contact an admin.".

(** ** tally_winners *)

Definition terminal (record : RowDict) : bool :=
  winner_in ["Withdrawn"; "Winner"; "Loser"] record.

(** [races[key].append(record)], creating the entry of a new key last. *)
Fixpoint races_append (races : list ((Cell * Cell) * list RowDict))
    (key : Cell * Cell) (record : RowDict)
  : list ((Cell * Cell) * list RowDict) :=
  match races with
  | [] => [(key, [record])]
  | (k, candidates) :: rest =>
      if decide (k = key) then (k, candidates ++ [record]) :: rest
      else (k, candidates) :: races_append rest key record
  end.

(** The first loop: group the records without a final status by seat and
    party, the groups in the order in which their keys first appear. *)
Definition group_races (records : list RowDict)
  : list ((Cell * Cell) * list RowDict) :=
  foldl (λ races record,
           if terminal record then races
           else races_append races
                  (dict_get record "Seat ID" blank, dict_get record "Party" blank)
                  record)
        [] records.

(** [max(candidates, key=lambda x: x.get("Points", 0))]: the first of the
    candidates that no other exceeds. *)
Fixpoint py_max_from (best : RowDict) (candidates : list RowDict)
  : Outcome RowDict :=
  match candidates with
  | [] => Ok best
  | x :: rest =>
      b ← py_gt (dict_get x "Points" (VInt 0)) (dict_get best "Points" (VInt 0));
      py_max_from (if b : bool then x else best) rest
  end.

Definition py_max_points (candidates : list RowDict) : Outcome RowDict :=
  match candidates with
  | [] => Raised ValueError
  | x :: rest => py_max_from x rest
  end.

(** The inner loop: write the status of every record of the race. *)
Fixpoint mark_race (signups_sheet : string) (seat_id party : Cell)
    (winner : RowDict) (i : nat) (records : list RowDict)
    (winners_declared : nat) : Py nat :=
  match records with
  | [] => mret winners_declared
  | record :: rest =>
      if bool_decide (dict_get record "Seat ID" blank = seat_id)
         && bool_decide (dict_get record "Party" blank = party)
         && negb (terminal record)
      then
        if bool_decide (dict_get record "Name" blank = dict_get winner "Name" blank)
        then
          ws_write signups_sheet (update_cell i 10 (VStr "Winner"));;
          mark_race signups_sheet seat_id party winner (S i) rest
            (S winners_declared)
        else
          ws_write signups_sheet (update_cell i 10 (VStr "Loser"));;
          mark_race signups_sheet seat_id party winner (S i) rest
            winners_declared
      else
        mark_race signups_sheet seat_id party winner (S i) rest winners_declared
  end.

(** The second loop, over [races.items()]. *)
Fixpoint declare_races (signups_sheet : string) (records : list RowDict)
    (races : list ((Cell * Cell) * list RowDict)) (winners_declared : nat)
  : Py nat :=
  match races with
  | [] => mret winners_declared
  | ((seat_id, party), candidates) :: rest =>
      match candidates with
      | [] => declare_races signups_sheet records rest winners_declared
      | _ =>
          winner ← lift (py_max_points candidates);
          n ← mark_race signups_sheet seat_id party winner 2 records
                winners_declared;
          declare_races signups_sheet records rest n
      end
  end.

Definition tally_winners_body : Py Reply :=
  signups_sheet ← sheet_named "All Signups";
  match signups_sheet with
  | None => mret (Say "Error accessing signups data.")
  | Some signups_sheet =>
      records ← get_all_records_safe signups_sheet;
      winners_declared ←
        declare_races signups_sheet records (group_races records) 0;
      mret (Say ("Tallying complete! " +:+ pretty winners_declared
                 +:+ " winners declared across all seats and parties."))
  end.

Definition not_admin : string :=
  "You need administrator permissions to use this command!".

Definition tally_winners (administrator : bool) : World → Reply * World :=
  if administrator then
    handle tally_winners_body
      "An error occurred while tallying winners. Please try again or contact an admin."
  else λ w, (Say not_admin, w).

(** ** transfer_winners *)

Definition winners_headers : Row :=
  map VStr ["Year"; "Office"; "State"; "District"; "Candidate"; "Party";
            "Points"; "Votes"; "Corruption"; "Final Score"; "Winner"].

(** The district label of a seat identifier such as REP-CO-1. *)
Definition district_of (seat_id : Cell) : Outcome string :=
  match seat_id with
  | VInt _ => Raised TypeError
  | VStr s =>
      if PyStr.contains_char "-" s then
        let parts := PyStr.split "-" s in
        if bool_decide (3 ≤ length parts)%nat
        then Ok ("District " +:+ List.last parts "")
        else Ok ""
      else Ok ""
  end.

Definition winner_row (cycle : Cycle) (record : RowDict) (district : string)
  : Row :=
  [VInt (year cycle);
   dict_get record "Office" blank;
   dict_get record "State" blank;
   VStr district;
   dict_get record "Name" blank;
   dict_get record "Party" blank;
   dict_get record "Points" (VInt 0);
   VInt 0;
   dict_get record "Corruption" (VInt 0);
   dict_get record "Points" (VInt 0);
   VStr "Yes"].

(** [already_exists]: the scan of the winners read before the loop. *)
Definition already_exists (winners_records : list RowDict) (user_id seat_id : Cell)
  : bool :=
  existsb (λ winner_record,
             bool_decide (py_str (dict_get winner_record "User ID" blank)
                          = py_str user_id)
             && bool_decide (dict_get winner_record "Seat ID" blank = seat_id))
          winners_records.

Fixpoint transfer_loop (winners_sheet : string) (cycle : Cycle)
    (winners_records records : list RowDict) (transferred : nat) : Py nat :=
  match records with
  | [] => mret transferred
  | record :: rest =>
      if bool_decide (dict_get record "Winner" blank = VStr "Winner") then
        let user_id := dict_get record "User ID" blank in
        let seat_id := dict_get record "Seat ID" blank in
        if already_exists winners_records user_id seat_id
        then transfer_loop winners_sheet cycle winners_records rest transferred
        else
          district ← lift (district_of seat_id);
          ws_write winners_sheet (append_row (winner_row cycle record district));;
          transfer_loop winners_sheet cycle winners_records rest (S transferred)
      else transfer_loop winners_sheet cycle winners_records rest transferred
  end.

Definition transfer_winners_body : Py Reply :=
  signups_sheet ← sheet_named "All Signups";
  winners_sheet ← sheet_named "All Winners";
  match signups_sheet, winners_sheet with
  | Some signups_sheet, Some winners_sheet =>
      cycle ← current_cycle;
      match cycle with
      | None => mret (Say "Error accessing cycle data.")
      | Some cycle =>
          records ← get_all_records_safe signups_sheet;
          winners_records ← get_all_records_safe winners_sheet;
          (match winners_records with
           | [] => ws_write winners_sheet (append_row winners_headers)
           | _ => mret ()
           end);;
          transferred ← transfer_loop winners_sheet cycle winners_records records 0;
          mret (Say ("Transfer complete! " +:+ pretty transferred
                     +:+ " winners moved to All Winners sheet."))
      end
  | _, _ => mret (Say "Error accessing required sheets.")
  end.

Definition transfer_winners (administrator : bool) : World → Reply * World :=
  if administrator then
    handle transfer_winners_body
      "An error occurred while transferring winners. Please try again or contact an admin."
  else λ w, (Say not_admin, w).

(** ** More Python strings *)

(** [s.isdigit()] on the ASCII range: at least one character, all of them
    decimal digits. *)
Fixpoint all_digits (s : string) : bool :=
  match s with
  | EmptyString => true
  | String a s' => bool_decide (is_Some (PyStr.digit a)) && all_digits s'
  end.


(** [needle in s]. *)
Fixpoint py_contains (needle s : string) : bool :=
  String.prefix needle s
  || match s with
     | EmptyString => false
     | String _ s' => py_contains needle s'
     end.



(** ** retry_api_call *)

(** What one call of [func] does: it returns, it raises the [APIError] of
    the spreadsheet client ([msg] is [str(e)]), or it raises something
    else. *)
Inductive Attempt (A : Type) : Type :=
| Returns (a : A)
| ApiError (msg : string)
| Fails (e : Exn).
Arguments Returns {A} a.
Arguments ApiError {A} msg.
Arguments Fails {A} e.

(** How [retry_api_call] ends: with the value of a call, with [None] when
    the loop has nothing to run, with the [APIError] of the last attempt, with
    the [ValueError] that reports an authentication failure, or with an
    exception that is not caught. *)
Inductive Retried (A : Type) : Type :=
| Returned (a : A)
| ReturnedNone
| ReRaised (msg : string)
| AuthenticationError
| Propagated (e : Exn).
Arguments Returned {A} a.
Arguments ReturnedNone {A}.
Arguments ReRaised {A} msg.
Arguments AuthenticationError {A}.
Arguments Propagated {A} e.

(** The end of the call, the number of calls of [func] and the delays that
    were slept, in seconds. *)
Record Retry (A : Type) : Type := mkRetry {
  retried : Retried A;
  calls : nat;
  slept : list Z
}.
Arguments mkRetry {A} retried calls slept.
Arguments retried {A} r.
Arguments calls {A} r.
Arguments slept {A} r.

(** The loop over [range(max_retries)], from [attempt] on; [remaining] is
    the number of attempts left, [func k] is what the call number [k] of
    [func] does, [naps] are the delays slept so far. [time.sleep] raises
    [ValueError] on a negative delay. *)
Fixpoint retry_loop {A} (func : nat → Attempt A) (max_retries initial_delay : Z)
    (remaining attempt : nat) (naps : list Z) : Retry A :=
  match remaining with
  | O => mkRetry ReturnedNone attempt naps
  | S remaining' =>
      match func attempt with
      | Returns a => mkRetry (Returned a) (S attempt) naps
      | Fails e => mkRetry (Propagated e) (S attempt) naps
      | ApiError msg =>
          if py_contains "invalid authentication" (PyStr.lower msg)
          then mkRetry AuthenticationError (S attempt) naps
          else if bool_decide (Z.of_nat attempt = max_retries - 1)
          then mkRetry (ReRaised msg) (S attempt) naps
          else
            let delay := initial_delay * 2 ^ Z.of_nat attempt in
            if bool_decide (delay < 0)
            then mkRetry (Propagated ValueError) (S attempt) naps
            else retry_loop func max_retries initial_delay remaining'
                   (S attempt) (naps ++ [delay])
      end
  end.

Definition retry_api_call {A} (func : nat → Attempt A)
    (max_retries initial_delay : Z) : Retry A :=
  retry_loop func max_retries initial_delay (Z.to_nat max_retries) 0 [].

(** ** The cycle: year, phase, signups *)

(** [update_cycle_year(new_year)] and [update_phase(phase)]. *)
Definition update_cycle_year (new_year : Z) : Py () := λ w,
  match get_sheet "Cycles" w with
  | Some cycles_sheet =>
      ws_write cycles_sheet (update_acell G2 (VInt new_year)) w
  | None => (Ok (), w)
  end.

Definition update_phase (phase : string) : Py () := λ w,
  match get_sheet "Cycles" w with
  | Some cycles_sheet => ws_write cycles_sheet (update_acell G4 (VStr phase)) w
  | None => (Ok (), w)
  end.

Definition open_signups (administrator : bool) : World → Reply * World :=
  if administrator then
    handle (update_signups_status true;;
            mret (Say "Election signups are now OPEN! 🗳️"))
      "An error occurred while opening signups. Please try again or contact an admin."
  else λ w, (Say not_admin, w).

Definition close_signups (administrator : bool) : World → Reply * World :=
  if administrator then
    handle (update_signups_status false;;
            mret (Say "Election signups are now CLOSED! 🚫"))
      "An error occurred while closing signups. Please try again or contact an admin."
  else λ w, (Say not_admin, w).

(** ** update_term_year *)



(** ** find_user_in_sheets *)



(** ** withdraw *)





(** * Vocabulary of the properties *)

(** The headers of the All Signups worksheet: the columns in the order in
    which [add_signup] fills them; Stamina, Points and Winner are the columns
    8, 9 and 10 that the handlers write. *)
Definition signup_names : list string :=
  ["User ID"; "Name"; "Seat ID"; "Party"; "Phase"; "Office";
   "Corruption"; "Stamina"; "Points"; "Winner"].

Definition signup_headers : Row := map VStr signup_names.

(** A worksheet read as a table: a header row with the given names and data
    rows of the width of the header row. *)
Definition table (names : list string) (sh : Sheet) : Prop :=
  ∃ rows, sh = map VStr names :: rows
          ∧ Forall (λ r, length r = length names) rows.

(** Header names that the cleaning leaves alone, pairwise different. *)
Definition clean_names (names : list string) : Prop :=
  final_headers names = names ∧ NoDup names.



(** A row as [add_signup] appends it. *)
Definition appended_by_signup (row : Row) : Prop :=
  ∃ user_id name seat_id party phase office,
    row = signup_row user_id name seat_id party phase office.

(** What [get_all_records_safe] leaves in the worksheet: row 1 is replaced by
    the cleaned headers when both differ, nothing else changes. *)
Definition normalise_header (sh : Sheet) : Sheet :=
  let all_values := get_all_values sh in
  if bool_decide (length all_values < 2)%nat then sh
  else
    let header_row := hd [] all_values in
    let final := final_headers header_row in
    if bool_decide (final ≠ header_row) then update_A1 (VStr <$> final) sh
    else sh.

(** The records that [get_all_records_safe] returns for a worksheet. *)
Definition records_in (sh : Sheet) : list RowDict :=
  let all_values := get_all_values sh in
  if bool_decide (length all_values < 2)%nat then []
  else get_all_records (final_headers (hd [] all_values)) (normalise_header sh).

(** A record of the user that is neither withdrawn nor lost. *)
Definition open_record (user_id : Z) (record : RowDict) : Prop :=
  is_user (pretty user_id) record
  ∧ dict_get record "Winner" blank ∉ [VStr "Withdrawn"; VStr "Loser"].

(** The user has such a record in the signup or in the winners registry. *)
Definition has_open_record (user_id : Z) (w : World) : Prop :=
  ∃ record, open_record user_id record
    ∧ (record ∈ records_in (ws_read "All Signups" w)
       ∨ record ∈ records_in (ws_read "All Winners" w)).




(** The record that the scan stops at, with its position among the records
    (the record at position [k] is in row [k + 2]). *)
Definition found_record (user_id : Z) (records : list RowDict)
  : option (nat * RowDict) :=
  list_find (λ record, signed_up user_id record) records.






(** The sum of a list of integers. *)
Definition Zsum (zs : list Z) : Z := foldr Z.add 0 zs.

(** The percentage of [z] points in a total of [t]. *)
Definition pct (t z : Z) : Q := (inject_Z z / inject_Z t * 100)%Q.

(** The national poll, once the cycle and the worksheet have been read. *)
Definition national (cycle : Cycle) (records : list RowDict) : Outcome Reply :=
  let candidates := List.filter (in_phase cycle) records in
  match candidates with
  | [] => Ok (Say "No candidates to poll.")
  | _ =>
      total_points ← total_of candidates;
      if bool_decide (total_points = 0)
      then Ok (Say "No polling data available.")
      else
        lines ← py_map (poll_line total_points) candidates;
        Ok (Say ("National Poll Results:" +:+ nl +:+ String.concat "" lines))
  end.

(** The key under which the tally groups a record: seat and party. *)
Definition race_key (record : RowDict) : Cell * Cell :=
  (dict_get record "Seat ID" blank, dict_get record "Party" blank).









(** A failure that is retried: an [APIError] that does not mention the
    authentication. *)
Definition transient {A} (o : Attempt A) : Prop :=
  ∃ msg, o = ApiError msg
         ∧ py_contains "invalid authentication" (PyStr.lower msg) = false.

(** The delays before the attempts 1 to [k]: the initial delay, doubled
    every time. *)
Definition backoff (initial_delay : Z) (k : nat) : list Z :=
  map (λ j : nat, initial_delay * 2 ^ Z.of_nat j) (seq 0 k).

(** A string without white space at either end, and a header as the
    cleaning leaves it: such a string that is not empty. *)
Definition trimmed (s : string) : Prop := PyStr.strip s = s.

Definition neat (h : string) : Prop := trimmed h ∧ h ≠ "".

(** Every worksheet has the rows that it had, but for the header row. *)
Definition data_rows_kept (w w' : World) : Prop :=
  ∀ s, length (ws_read s w') = length (ws_read s w)
       ∧ tail (ws_read s w') = tail (ws_read s w).

(** The user may sign up: no record of the signups worksheet that is
    neither withdrawn nor lost, and no record at all of the winners
    worksheet, is theirs. *)
Definition free_to_run (user_id : Z) (w : World) : Prop :=
  (∀ record, record ∈ records_in (ws_read "All Signups" w) →
             ¬ open_record user_id record)
  ∧ (∀ record, record ∈ records_in (ws_read "All Winners" w) →
               ¬ is_user (pretty user_id) record).





(** The points of a record, when they are a number. *)
Definition points_of (record : RowDict) : option Z :=
  match dict_get record "Points" (VInt 0) with
  | VInt p => Some p
  | VStr _ => None
  end.

(** Only the status column has changed, in the one worksheet. *)
Definition status_only (sheet : string) (w w' : World) : Prop :=
  (∀ s, s ≠ sheet → w' !! s = w !! s)
  ∧ (is_Some (w' !! sheet) ↔ is_Some (w !! sheet))
  ∧ ∀ i j, j ≠ 10%nat →
           cell_at i j (ws_read sheet w') = cell_at i j (ws_read sheet w).





(** The names of the headers that [transfer_winners] writes. *)
Definition winners_names : list string :=
  ["Year"; "Office"; "State"; "District"; "Candidate"; "Party";
   "Points"; "Votes"; "Corruption"; "Final Score"; "Winner"].



(** The number of occurrences of a character. *)
Fixpoint count_char (c : ascii) (s : string) : nat :=
  match s with
  | EmptyString => 0
  | String a s' => (if Ascii.eqb a c then 1 else 0) + count_char c s'
  end.


(** * Sample spreadsheets *)

(** A Cycles worksheet: seats in the columns A to E and, in column G, the
    year 2024, open signups and the primary phase. *)
Definition cycles_2024 : Sheet :=
  [ map VStr ["Year"; "State"; "Seat ID"; "Term/Year"; "Office"; "Note"; "Cycle"];
    [VInt 2024; VStr "Austin"; VStr "SEN-AU-1"; VInt 6; VStr "Senate"; blank;
     VInt 2024];
    [VInt 2026; VStr "Austin"; VStr "REP-AU-1"; VInt 2; VStr "House"; blank;
     VStr "TRUE"];
    [blank; blank; blank; blank; blank; blank; VStr "Primary"] ].

(** The row of user 42, signed up as Ava, and a spreadsheet with this one
    signup. *)
Definition ava_running : Row :=
  signup_row 42 "Ava" "SEN-AU-1" "Independent" "Primary" (VStr "Senate").

Definition ava_signed_up : World :=
  <["Cycles" := cycles_2024]>
    (<["All Signups" := [signup_headers; ava_running]]>
       (<["All Winners" := []]> ∅)).

(** A signups worksheet with two more columns, both headed Notes. *)
Definition two_notes : World :=
  <["Cycles" := cycles_2024]>
    (<["All Signups" :=
         [signup_headers ++ [VStr "Notes"; VStr "Notes"];
          ava_running ++ [VStr "met the press"; VStr "call back"]]]> ∅).

(** Two candidates of the same seat and party who chose the same name, with
    10 and 5 points. *)
Definition ava_10 : Row :=
  [VInt 41; VStr "Ava"; VStr "SEN-AU-1"; VStr "Independent"; VStr "Primary";
   VStr "Senate"; VInt 0; VInt 100; VInt 10; blank].

Definition ava_5 : Row :=
  [VInt 42; VStr "Ava"; VStr "SEN-AU-1"; VStr "Independent"; VStr "Primary";
   VStr "Senate"; VInt 0; VInt 100; VInt 5; blank].

(** A candidate of another party with 30 points, and a primary between Ava
    (10 points) and Bo. *)
Definition bo_running : Row :=
  [VInt 43; VStr "Bo"; VStr "SEN-AU-1"; VStr "Democrats"; VStr "Primary";
   VStr "Senate"; VInt 0; VInt 70; VInt 30; blank].

Definition two_candidates : World :=
  <["Cycles" := cycles_2024]>
    (<["All Signups" := [signup_headers; ava_10; bo_running]]> ∅).

(** A primary between the two namesakes. *)
Definition namesakes : World :=
  <["Cycles" := cycles_2024]>
    (<["All Signups" := [signup_headers; ava_10; ava_5]]> ∅).

(** A spreadsheet after a tally: one declared winner among the signups and a
    winners worksheet that is still empty; and the row that a transfer
    writes for this winner. *)
Definition ava_won : Row :=
  [VInt 42; VStr "Ava"; VStr "SEN-AU-1"; VStr "Independent"; VStr "Primary";
   VStr "Senate"; VInt 0; VInt 90; VInt 12; VStr "Winner"].

Definition ava_transferred : Row :=
  [VInt 2024; VStr "Senate"; blank; VStr "District 1"; VStr "Ava";
   VStr "Independent"; VInt 12; VInt 0; VInt 0; VInt 12; VStr "Yes"].

Definition after_tally : World :=
  <["Cycles" := cycles_2024]>
    (<["All Signups" := [signup_headers; ava_won]]>
       (<["All Winners" := []]> ∅)).

(** A service that fails once for the quota and then returns 7; one that
    always fails for the quota; one that rejects the credentials. *)
Definition flaky (attempt : nat) : Attempt Z :=
  match attempt with
  | O => ApiError "Quota exceeded for quota metric"
  | _ => Returns 7
  end.

Definition overloaded (attempt : nat) : Attempt Z :=
  ApiError "Quota exceeded for quota metric".

Definition unauthorised (attempt : nat) : Attempt Z :=
  ApiError "Request had Invalid Authentication credentials.".

(** A Cycles worksheet with closed signups, and a spreadsheet with it. *)
Definition cycles_closed : Sheet :=
  [ map VStr ["Year"; "State"; "Seat ID"; "Term/Year"; "Office"; "Note"; "Cycle"];
    [VInt 2024; VStr "Austin"; VStr "SEN-AU-1"; VInt 6; VStr "Senate"; blank;
     VInt 2024];
    [VInt 2026; VStr "Austin"; VStr "REP-AU-1"; VInt 2; VStr "House"; blank;
     VStr "FALSE"];
    [blank; blank; blank; blank; blank; blank; VStr "Primary"] ].

Definition signups_closed : World :=
  <["Cycles" := cycles_closed]>
    (<["All Signups" := [signup_headers; ava_running]]>
       (<["All Winners" := []]> ∅)).

(** A spreadsheet without the Cycles worksheet. *)
Definition no_cycles : World :=
  <["All Signups" := [signup_headers; ava_running]]> ∅.

(** The Senate seat of Austin as a record, and a view made of it. *)
Definition senate_seat : RowDict :=
  <["Seat ID" := VStr "SEN-AU-1"]> (<["Office" := VStr "Senate"]> ∅).

Definition senate_view : SeatView :=
  {| view_seats := [senate_seat];
     view_buttons := [("SEN-AU-1 (Senate)", VStr "SEN-AU-1")] |}.




(** The general election: a Cycles worksheet in the phase General, and the
    winners worksheet as [transfer_winners] writes it. *)
Definition cycles_general : Sheet :=
  [ map VStr ["Year"; "State"; "Seat ID"; "Term/Year"; "Office"; "Note"; "Cycle"];
    [VInt 2024; VStr "Austin"; VStr "SEN-AU-1"; VInt 6; VStr "Senate"; blank;
     VInt 2024];
    [VInt 2026; VStr "Austin"; VStr "REP-AU-1"; VInt 2; VStr "House"; blank;
     VStr "TRUE"];
    [blank; blank; blank; blank; blank; blank; VStr "General"] ].

Definition general_2024 : World :=
  <["Cycles" := cycles_general]>
    (<["All Signups" := [signup_headers; ava_won]]>
       (<["All Winners" := [winners_headers; ava_transferred]]> ∅)).

(** The service that fails once and then returns 7, out of order from the
    fourth call on. *)
Definition flaky_then_down (attempt : nat) : Attempt Z :=
  if bool_decide (attempt < 3)%nat then flaky attempt else Fails ValueError.

(** The primary cycle of 2024 with open signups, and the general one. *)
Definition primary_2024 : Cycle :=
  {| year := 2024; signups_open := true; phase := "Primary" |}.

Definition general_cycle : Cycle :=
  {| year := 2024; signups_open := true; phase := "General" |}.



(** * Properties *)

(** ** Cells of a worksheet *)

Section Grid.
Implicit Types (sh : Sheet) (v : Cell) (i j : nat).

Lemma pad_to_lookup {A} (n : nat) (d : A) (l : list A) (k : nat) :
  default d (pad_to n d l !! k) = default d (l !! k).
Proof.
  unfold pad_to. destruct (decide (k < length l)%nat) as [Hk|Hk].
  - by rewrite lookup_app_l.
  - rewrite lookup_app_r by lia. rewrite (lookup_ge_None_2 l k) by lia.
    destruct (replicate _ _ !! _) as [x|] eqn:E; [|done].
    apply lookup_replicate in E as [-> _]. done.
Qed.

Lemma pad_to_length {A} (n : nat) (d : A) (l : list A) :
  length (pad_to n d l) = (length l `max` n)%nat.
Proof. unfold pad_to. rewrite length_app, length_replicate. lia. Qed.

Lemma cell_at_row i j sh :
  cell_at i j sh = default blank (default [] (sh !! pred i) !! pred j).
Proof. unfold cell_at. by destruct (sh !! pred i). Qed.

Lemma update_cell_row i j v sh k :
  (0 < i)%nat →
  default [] (update_cell i j v sh !! k) =
  if decide (k = pred i)
  then <[pred j := v]> (pad_to j blank (default [] (sh !! k)))
  else default [] (sh !! k).
Proof.
  intros Hi. unfold update_cell. destruct (decide (k = pred i)) as [->|Hne].
  - assert (Hlt : (pred i < length (pad_to i [] sh))%nat)
      by (rewrite pad_to_length; lia).
    apply lookup_lt_is_Some in Hlt as [r Hr].
    rewrite list_lookup_alter_eq, Hr. simpl.
    pose proof (pad_to_lookup i [] sh (pred i)) as Hp.
    rewrite Hr in Hp. simpl in Hp. by rewrite Hp.
  - rewrite list_lookup_alter_ne by done. apply (pad_to_lookup i [] sh k).
Qed.

(** A cell reads back what was written to it. *)
Lemma cell_at_update_cell_eq i j v sh :
  (0 < i)%nat → (0 < j)%nat → cell_at i j (update_cell i j v sh) = v.
Proof.
  intros Hi Hj. rewrite cell_at_row, update_cell_row by done.
  rewrite decide_True by done.
  rewrite list_lookup_insert_eq; [done|].
  rewrite pad_to_length. lia.
Qed.

(** Writing a cell leaves every other cell as it was. *)
Lemma cell_at_update_cell_ne i j i' j' v sh :
  (0 < i)%nat →
  pred i' ≠ pred i ∨ pred j' ≠ pred j →
  cell_at i' j' (update_cell i j v sh) = cell_at i' j' sh.
Proof.
  intros Hi Hne. rewrite !cell_at_row, update_cell_row by done.
  destruct (decide (pred i' = pred i)) as [Hi'|Hi']; [|done].
  destruct Hne as [?|Hj]; [done|].
  rewrite list_lookup_insert_ne by done. apply pad_to_lookup.
Qed.

Lemma acell_update_cell_ne i j a1 v sh :
  (0 < i)%nat →
  pred a1.1 ≠ pred i ∨ pred a1.2 ≠ pred j →
  acell a1 (update_cell i j v sh) = acell a1 sh.
Proof. intros. unfold acell. by rewrite cell_at_update_cell_ne. Qed.

Lemma acell_update_cell_eq i j (s : string) sh :
  (0 < i)%nat → (0 < j)%nat → s ≠ "" →
  acell (i, j) (update_cell i j (VStr s) sh) = Some s.
Proof.
  intros. unfold acell. simpl. rewrite cell_at_update_cell_eq by done.
  simpl. by destruct s.
Qed.

End Grid.

(** ** Worksheets of the spreadsheet *)

Section Worksheets.
Implicit Types (w : World) (f : Sheet → Sheet) (s t : string).

Lemma get_sheet_Some s w sh : w !! s = Some sh → get_sheet s w = Some s.
Proof. unfold get_sheet. by intros ->. Qed.

Lemma get_sheet_inv s t w : get_sheet s w = Some t → t = s ∧ is_Some (w !! s).
Proof. unfold get_sheet. destruct (w !! s) eqn:E; naive_solver. Qed.

Lemma get_sheet_alter s t f w : get_sheet s (alter f t w) = get_sheet s w.
Proof.
  unfold get_sheet. rewrite lookup_alter.
  case_decide; subst; by destruct (w !! s).
Qed.

Lemma ws_read_alter_eq s f w :
  is_Some (w !! s) → ws_read s (alter f s w) = f (ws_read s w).
Proof. intros [sh Hsh]. unfold ws_read. by rewrite lookup_alter_eq, Hsh. Qed.

Lemma ws_read_alter_ne s t f w : t ≠ s → ws_read s (alter f t w) = ws_read s w.
Proof. intros. unfold ws_read. by rewrite lookup_alter_ne. Qed.

Lemma ws_read_lookup s w sh : w !! s = Some sh → ws_read s w = sh.
Proof. unfold ws_read. by intros ->. Qed.

End Worksheets.

(** ** Reading the records of a worksheet *)

Section Reading.
Implicit Types (w : World) (sh : Sheet) (s t : string).

Lemma alter_absent (f : Sheet → Sheet) s w : w !! s = None → alter f s w = w.
Proof. intros H. apply alter_id. intros x Hx. congruence. Qed.

(** [get_all_records_safe] never raises; it returns [records_in] and
    leaves [normalise_header] of the worksheet. *)
Lemma get_all_records_safe_eq s w :
  get_all_records_safe s w
  = (Ok (records_in (ws_read s w)), alter normalise_header s w).
Proof.
  unfold get_all_records_safe, records_in, normalise_header.
  destruct (w !! s) as [sh|] eqn:Hsh.
  - rewrite (ws_read_lookup _ _ _ Hsh).
    case_bool_decide as Hlen.
    + f_equal. symmetry. apply alter_id. intros x Hx.
      assert (x = sh) as -> by congruence. by rewrite bool_decide_true.
    + case_bool_decide as Hfin.
      * rewrite ws_read_alter_eq by eauto.
        rewrite (ws_read_lookup _ _ _ Hsh). f_equal.
        apply alter_ext. intros x Hx. assert (x = sh) as -> by congruence.
        rewrite (bool_decide_false _ Hlen). by rewrite (bool_decide_true _ Hfin).
      * rewrite (ws_read_lookup _ _ _ Hsh). f_equal.
        symmetry. apply alter_id. intros x Hx.
        assert (x = sh) as -> by congruence.
        rewrite (bool_decide_false _ Hlen). by rewrite bool_decide_false by (by intros []).
  - unfold ws_read. rewrite Hsh. simpl. by rewrite alter_absent.
Qed.

Lemma normalise_header_tail sh : tail (normalise_header sh) = tail sh.
Proof.
  unfold normalise_header. repeat case_bool_decide; try done.
  by destruct sh.
Qed.

Lemma normalise_header_length sh : length (normalise_header sh) = length sh.
Proof.
  unfold normalise_header. repeat case_bool_decide; try done.
  destruct sh; [|done]. simpl in *. lia.
Qed.

(** A header row that is already clean is not written. *)
Lemma normalise_header_clean sh :
  final_headers (hd [] (get_all_values sh)) = hd [] (get_all_values sh) →
  normalise_header sh = sh.
Proof.
  intros H. unfold normalise_header. case_bool_decide; [done|].
  by rewrite bool_decide_false by (by intros []).
Qed.

Lemma ws_read_normalise_eq s w :
  ws_read s (alter normalise_header s w) = normalise_header (ws_read s w).
Proof.
  destruct (w !! s) as [sh|] eqn:Hsh.
  - by rewrite ws_read_alter_eq by eauto.
  - rewrite alter_absent by done. unfold ws_read. by rewrite Hsh.
Qed.

End Reading.

(** ** Records and columns *)

Section Dicts.
Implicit Types (keys : list string) (row : Row) (d : RowDict) (k : string).

Lemma dict_zip_acc_absent (l : list (string * Cell)) d k :
  k ∉ l.*1 →
  foldl (λ d kv, <[kv.1 := kv.2]> d) d l !! k = d !! k.
Proof.
  revert d. induction l as [|[k' v'] l IH]; intros d Hk; [done|].
  simpl in *. apply not_elem_of_cons in Hk as [Hne Hk].
  rewrite IH by done. by rewrite lookup_insert_ne.
Qed.

Lemma zip_keys_subset keys row k : k ∈ (zip keys row).*1 → k ∈ keys.
Proof.
  revert row. induction keys as [|k' keys IH]; intros [|v row] Hk;
    simpl in *; try by apply elem_of_nil in Hk.
  apply elem_of_cons in Hk as [->|Hk]; [by left|right; eauto].
Qed.

(** A key that is not a header is not in the record. *)
Lemma dict_zip_absent keys row k : k ∉ keys → dict_zip keys row !! k = None.
Proof.
  intros Hk. unfold dict_zip. rewrite dict_zip_acc_absent; [done|].
  intros Hin. by apply Hk, (zip_keys_subset keys row).
Qed.

Lemma dict_zip_acc_lookup keys row d k (i : nat) :
  NoDup keys → keys !! i = Some k →
  foldl (λ d kv, <[kv.1 := kv.2]> d) d (zip keys row) !! k
  = match row !! i with Some v => Some v | None => d !! k end.
Proof.
  intros Hnd. revert row d i.
  induction Hnd as [|k' keys Hk' Hnd IH]; intros row d i Hi; [done|].
  destruct row as [|v row]; [by simpl|].
  destruct i as [|i]; simpl in *.
  - simplify_eq. rewrite dict_zip_acc_absent.
    + by rewrite lookup_insert_eq.
    + intros Hin. by apply Hk', (zip_keys_subset keys row).
  - rewrite (IH row _ i Hi). destruct (row !! i); [done|].
    rewrite lookup_insert_ne; [done|].
    intros ->. apply Hk'. by eapply list_elem_of_lookup_2.
Qed.

(** Under headers that are pairwise different, the record has under each
    header the cell of its column. *)
Lemma dict_zip_lookup keys row k (i : nat) :
  NoDup keys → keys !! i = Some k → dict_zip keys row !! k = row !! i.
Proof.
  intros Hnd Hi. unfold dict_zip. rewrite (dict_zip_acc_lookup _ _ _ _ i) by done.
  by destruct (row !! i).
Qed.

End Dicts.

Section Rectangles.
Implicit Types (sh : Sheet) (n : nat).

Lemma width_le sh n : Forall (λ r, length r ≤ n)%nat sh → (width sh ≤ n)%nat.
Proof.
  unfold width. induction 1 as [|r sh Hr _ IH]; simpl; [lia|].
  simpl in IH. lia.
Qed.

Lemma width_ge sh r : r ∈ sh → (length r ≤ width sh)%nat.
Proof.
  unfold width. induction 1 as [r sh|r r' sh _ IH]; simpl; simpl in *; lia.
Qed.

Lemma pad_to_full {A} n (d : A) (l : list A) :
  (n ≤ length l)%nat → pad_to n d l = l.
Proof.
  intros H. unfold pad_to. replace (n - length l)%nat with 0%nat by lia.
  apply app_nil_r.
Qed.

(** A worksheet whose rows all have the width of the header row is read as
    it is. *)
Lemma fill_gaps_rectangle sh n :
  Forall (λ r, length r = n) sh → fill_gaps sh = sh.
Proof.
  intros Hall. unfold fill_gaps.
  assert (Hw : (width sh ≤ n)%nat).
  { apply width_le. eapply Forall_impl; [done|]. simpl. lia. }
  transitivity (map id sh); [|apply map_id].
  apply map_ext_in. intros r Hr. apply pad_to_full.
  apply list_elem_of_In in Hr.
  pose proof (proj1 (Forall_forall _ _) Hall r Hr) as Hn.
  unfold id. simpl in Hn. lia.
Qed.

End Rectangles.

(** ** Tables under clean headers *)

Section Layout.
Context (names : list string).
Hypothesis Hclean : clean_names names.
Implicit Types (sh : Sheet) (rows : list Row) (row : Row) (v : Cell).
Local Abbreviation fits :=
  (Forall (λ r : list Cell, length r = length names)).

Lemma header_values : map py_str (map VStr names) = names.
Proof. rewrite map_map. apply map_id. Qed.

Lemma table_rectangle rows :
  fits rows → fill_gaps (map VStr names :: rows) = map VStr names :: rows.
Proof.
  intros H. apply (fill_gaps_rectangle _ (length names)).
  constructor; [by rewrite length_map|done].
Qed.

(** Reading a table under clean headers writes nothing. *)
Lemma table_normalise rows :
  fits rows →
  normalise_header (map VStr names :: rows) = map VStr names :: rows.
Proof.
  intros H. apply normalise_header_clean.
  unfold get_all_values. rewrite table_rectangle by done. simpl.
  rewrite header_values. apply Hclean.
Qed.

(** Its records are its data rows under the header names. *)
Lemma table_records rows :
  fits rows →
  records_in (map VStr names :: rows) = map (dict_zip names) rows.
Proof.
  intros H. unfold records_in.
  rewrite table_normalise by done.
  unfold get_all_values, get_all_records.
  rewrite table_rectangle by done. simpl.
  rewrite header_values, (proj1 Hclean).
  case_bool_decide as Hlen; [|done].
  destruct rows; [done|]. simpl in Hlen. lia.
Qed.

(** A record has under a header the cell of the column of the header. *)
Lemma table_lookup row (k : string) (i : nat) :
  names !! i = Some k → dict_zip names row !! k = row !! i.
Proof. intros Hi. apply dict_zip_lookup; [apply Hclean|done]. Qed.


Lemma table_kept row v (k k' : string) (i : nat) :
  names !! i = Some k → k' ≠ k →
  dict_zip names (<[i := v]> row) !! k' = dict_zip names row !! k'.
Proof.
  intros Hi Hne. destruct (decide (k' ∈ names)) as [Hin|Hout].
  - apply list_elem_of_lookup in Hin as [i' Hi'].
    rewrite !(table_lookup _ k' i') by done.
    apply list_lookup_insert_ne. intros ->. congruence.
  - by rewrite !dict_zip_absent.
Qed.

End Layout.

Lemma signup_names_clean : clean_names signup_names.
Proof. split; [reflexivity|]. apply (bool_decide_unpack _). by vm_compute. Qed.

Section Status.
Context (names : list string).
Hypothesis Hclean : clean_names names.
Hypothesis Hwinner : names !! 9%nat = Some "Winner".
Implicit Types (row : Row) (v : Cell).


Lemma race_key_status row v :
  race_key (dict_zip names (<[9%nat := v]> row))
  = race_key (dict_zip names row).
Proof.
  unfold race_key, dict_get.
  by rewrite !(table_kept names Hclean _ _ "Winner" _ 9).
Qed.


End Status.

Section RowCells.



End RowCells.

(** ** Opening and closing signups *)

Lemma status_text_round_trip (b : bool) :
  bool_decide (PyStr.lower (PyStr.upper (PyStr.of_bool b)) = "true") = b.
Proof. by destruct b. Qed.

(** C10. Writing a status with [update_signups_status] and reading the cycle
    back gives that status: when the Cycles worksheet is there and its year
    cell G2 is blank or holds a number, [get_current_cycle] after the update
    succeeds, with [signups_open] the Boolean written and the year and phase
    of the worksheet. *)
Theorem signups_status_round_trip (b : bool) (w : World) (sh : Sheet) (y : Z) :
  w !! "Cycles" = Some sh →
  match acell G2 sh with None => Some 1990 | Some v => PyStr.to_int v end
    = Some y →
  get_current_cycle (update_signups_status b w).2
  = Some {| year := y; signups_open := b;
            phase := default "Primary" (acell G4 sh) |}.
Proof.
  intros Hsh Hy.
  unfold update_signups_status. rewrite (get_sheet_Some _ _ _ Hsh).
  unfold ws_write, update_acell, G3. simpl.
  unfold get_current_cycle.
  rewrite get_sheet_alter, (get_sheet_Some _ _ _ Hsh).
  rewrite ws_read_alter_eq, (ws_read_lookup _ _ _ Hsh) by eauto.
  rewrite (acell_update_cell_ne 3 7 G2), (acell_update_cell_ne 3 7 G4)
    by (simpl; lia).
  rewrite Hy. simpl.
  change G3 with (3, 7)%nat.
  rewrite acell_update_cell_eq by (try lia; by destruct b). simpl.
  by rewrite status_text_round_trip.
Qed.

Lemma signups_status_round_trip_witness :
  get_current_cycle
    (update_signups_status false (<["Cycles" := cycles_2024]> ∅)).2
  = Some {| year := 2024; signups_open := false; phase := "Primary" |}.
Proof.
  apply (signups_status_round_trip false (<["Cycles" := cycles_2024]> ∅)
           cycles_2024 2024); reflexivity.
Defined.

(** ** Header cleaning *)

Lemma append_nonempty (s t : string) : s ≠ "" → s +:+ t ≠ "".
Proof. by destruct s. Qed.

Lemma clean_headers_from_nonempty (i : nat) (header_row : list string) :
  Forall (λ h, h ≠ "") (clean_headers_from i header_row).
Proof.
  revert i. induction header_row as [|h t IH]; intros i; simpl; [constructor|].
  constructor; [|apply IH]. by case_decide.
Qed.

Lemma dedup_headers_nonempty (header_count : gmap string nat)
    (cleaned : list string) :
  Forall (λ h, h ≠ "") cleaned →
  Forall (λ h, h ≠ "") (dedup_headers header_count cleaned).
Proof.
  intros H. revert header_count.
  induction H as [|h t Hh Ht IH]; intros header_count; simpl; [constructor|].
  destruct (header_count !! h); constructor; auto using append_nonempty.
Qed.

(** No cleaned header is empty, whatever the raw header row. *)
Lemma final_headers_nonempty (header_row : list string) :
  Forall (λ h, h ≠ "") (final_headers header_row).
Proof. apply dedup_headers_nonempty, clean_headers_from_nonempty. Qed.

Lemma final_headers_length (header_row : list string) :
  length (final_headers header_row) = length header_row.
Proof.
  unfold final_headers, cleaned_headers.
  assert (H1 : ∀ i l, length (clean_headers_from i l) = length l).
  { intros i l. revert i. induction l; intros; simpl; auto. }
  assert (H2 : ∀ m l, length (dedup_headers m l) = length l).
  { intros m l. revert m. induction l; intros; simpl; [done|].
    destruct (m !! a); simpl; auto. }
  by rewrite H2, H1.
Qed.

(** C8. The header cleaning does not always give pairwise different names.
    On the raw header row Name, Name, Name_1 and a blank cell (one blank
    cell, one repeated name) the second Name is renamed Name_1, which the
    third column already bears: the cleaned headers are not pairwise
    different, and the mapping built from a data row keeps three of its four
    cells, the cell of the second column being lost. *)
Theorem final_headers_collision :
  final_headers ["Name"; "Name"; "Name_1"; ""]
  = ["Name"; "Name_1"; "Name_1"; "Column_4"]
  ∧ ¬ NoDup (final_headers ["Name"; "Name"; "Name_1"; ""])
  ∧ ∀ a b c d : Cell,
      dict_zip (final_headers ["Name"; "Name"; "Name_1"; ""]) [a; b; c; d]
      = <["Name" := a]> (<["Name_1" := c]> (<["Column_4" := d]> ∅)).
Proof.
  split; [reflexivity|]. split.
  - change (final_headers ["Name"; "Name"; "Name_1"; ""])
      with ["Name"; "Name_1"; "Name_1"; "Column_4"].
    intros Hnd. apply NoDup_cons in Hnd as [_ Hnd].
    apply NoDup_cons in Hnd as [Hnot _]. apply Hnot. by left.
  - intros a b c d. apply map_eq. intros k.
    change (final_headers ["Name"; "Name"; "Name_1"; ""])
      with ["Name"; "Name_1"; "Name_1"; "Column_4"].
    unfold dict_zip. simpl.
    destruct (decide (k = "Column_4")) as [->|?]; [done|].
    destruct (decide (k = "Name_1")) as [->|?]; [done|].
    destruct (decide (k = "Name")) as [->|?]; [done|].
    by rewrite !lookup_insert_ne.
Qed.

(** ** Transfer of the winners *)

(** C1. Two runs of [transfer_winners] do transfer a winner twice. The rows
    of the winners worksheet carry neither the user nor the seat identifier,
    so the scan for an existing row never finds one: with user 42 declared
    winner of seat SEN-AU-1 and an empty winners worksheet, the first run
    writes the header row and the row of the winner, and the second run
    appends the same row again. *)
Theorem transfer_winners_twice_duplicates :
  let w1 := (transfer_winners true after_tally).2 in
  let w2 := (transfer_winners true w1).2 in
  w1 !! "All Winners" = Some [winners_headers; ava_transferred]
  ∧ w2 !! "All Winners"
    = Some [winners_headers; ava_transferred; ava_transferred]
  ∧ w2 !! "All Signups" = Some [signup_headers; ava_won].
Proof. vm_compute. auto. Qed.

(** ** Tally of the winners *)

(** C6. [tally_winners] recognises the winner of a race by name, so a
    namesake in the same race is declared winner too: of two candidates named
    Ava for the same seat and party, with 10 and 5 points, both rows end with
    the status Winner, and the reply counts two winners. *)
Theorem tally_winners_namesakes :
  (tally_winners true namesakes).1
  = Say "Tallying complete! 2 winners declared across all seats and parties."
  ∧ (tally_winners true namesakes).2 !! "All Signups"
    = Some [signup_headers;
            <[9%nat := VStr "Winner"]> ava_10;
            <[9%nat := VStr "Winner"]> ava_5].
Proof. vm_compute. auto. Qed.

(** ** One candidacy per user *)

Ltac py_unfold :=
  unfold mbind, mret, Py_bind, Py_ret, lift, sheet_named, current_cycle, ask.

Section OneCandidacy.
Implicit Types (w : World) (user_id : Z).




Lemma existsb_elem {A} (f : A → bool) (l : list A) (x : A) :
  x ∈ l → f x = true → existsb f l = true.
Proof.
  intros Hin Hf. apply existsb_exists. exists x. split; [|done].
  by apply list_elem_of_In.
Qed.

Lemma open_record_signups user_id record :
  open_record user_id record →
  is_user (pretty user_id) record
  && negb (winner_in ["Withdrawn"; "Loser"] record) = true.
Proof.
  intros [Hu Hw]. apply andb_true_intro. split; [by destruct (is_user _ _)|].
  apply negb_true_iff. unfold winner_in. by apply bool_decide_eq_false.
Qed.


Lemma records_in_nil : records_in [] = [].
Proof. reflexivity. Qed.


End OneCandidacy.




(** ** Rallies and canvassing *)

Section Actions.
Context (sheet : string) (user_id : Z) (cost lo hi : Z) (verb : string)
  (entropy : Z).
Implicit Types (w : World) (records : list RowDict) (i k : nat).

Lemma action_scan_none records i w :
  found_record user_id records = None →
  action_scan sheet user_id cost lo hi verb entropy i records w
  = (Ok (Say "You are not signed up or have withdrawn."), w).
Proof.
  unfold found_record. revert i.
  induction records as [|r rest IH]; intros i Hnone; [done|].
  simpl in *. destruct (signed_up user_id r); simpl in *; [done|].
  apply IH. by destruct (list_find _ rest).
Qed.




End Actions.


Section Handlers.
Context (user_id : Z) (cost lo hi : Z) (verb : string) (entropy : Z)
  (apology : string).
Implicit Types (w : World) (cycle : Cycle) (sheet : string).

(** With the cycle and the worksheet of the phase at hand, the handler reads
    the records and scans them from row 2. *)
Lemma action_run w cycle sheet :
  get_current_cycle w = Some cycle →
  sheet_for_phase cycle w = Some sheet →
  handle (action_body user_id cost lo hi verb entropy) apology w
  = handle (action_scan sheet user_id cost lo hi verb entropy 2
              (records_in (ws_read sheet w)))
      apology (alter normalise_header sheet w).
Proof.
  intros Hc Hs. unfold handle, action_body. py_unfold.
  by rewrite Hc, Hs, get_all_records_safe_eq.
Qed.

Lemma action_not_signed_up w cycle sheet :
  get_current_cycle w = Some cycle →
  sheet_for_phase cycle w = Some sheet →
  found_record user_id (records_in (ws_read sheet w)) = None →
  handle (action_body user_id cost lo hi verb entropy) apology w
  = (Say "You are not signed up or have withdrawn.",
     alter normalise_header sheet w).
Proof.
  intros Hc Hs Hnone. rewrite (action_run w cycle sheet) by done.
  unfold handle. by rewrite action_scan_none.
Qed.



End Handlers.


(** The read of the records writes row 1 at most. *)
Lemma normalise_writes_header_only (sheet : string) (w : World) :
  (∀ s, length (ws_read s (alter normalise_header sheet w))
        = length (ws_read s w)
        ∧ tail (ws_read s (alter normalise_header sheet w))
          = tail (ws_read s w))
  ∧ (final_headers (hd [] (get_all_values (ws_read sheet w)))
     = hd [] (get_all_values (ws_read sheet w)) →
     alter normalise_header sheet w = w).
Proof.
  split.
  - intros s. destruct (decide (s = sheet)) as [->|Hne].
    + rewrite ws_read_normalise_eq.
      by rewrite normalise_header_length, normalise_header_tail.
    + by rewrite ws_read_alter_ne.
  - intros Hclean. apply alter_id. intros sh Hsh.
    apply normalise_header_clean. by rewrite (ws_read_lookup _ _ _ Hsh) in Hclean.
Qed.




Lemma cell_at_normalise_header (i j : nat) (sh : Sheet) :
  (2 ≤ i)%nat → cell_at i j (normalise_header sh) = cell_at i j sh.
Proof.
  intros Hi. unfold cell_at.
  destruct i as [|[|i]]; [lia..|]. simpl.
  pose proof (normalise_header_tail sh) as Ht.
  destruct (normalise_header sh) as [|? ?], sh as [|? ?]; simpl in *;
    by subst.
Qed.






(** ** Polls by state *)

Lemma lower_empty (s : string) : PyStr.lower s = "" → s = "".
Proof. by destruct s. Qed.

Lemma py_filter_none {A} (f : A → Outcome bool) (l : list A) :
  Forall (λ x, f x = Ok false) l → py_filter f l = Ok [].
Proof.
  induction 1 as [|x l Hx _ IH]; [done|]. simpl. by rewrite Hx, IH.
Qed.

Lemma appended_by_signup_length (row : Row) :
  appended_by_signup row → length row = 10%nat.
Proof. by intros (? & ? & ? & ? & ? & ? & ->). Qed.

(** The record of a signup row has no State. *)
Lemma signup_record_no_state (row : Row) :
  dict_get (dict_zip signup_names row) "State" blank = blank.
Proof.
  unfold dict_get. rewrite dict_zip_absent; [done|].
  apply (bool_decide_unpack _). by vm_compute.
Qed.

Lemma appended_rows_fit (rows : list Row) :
  Forall appended_by_signup rows →
  Forall (λ r : list Cell, length r = length signup_names) rows.
Proof.
  intros H. eapply Forall_impl; [exact H|].
  intros row Hrow. by apply appended_by_signup_length.
Qed.

(** C9. The rows that the signup flow appends have ten cells, none of them
    for the state. Hence on a worksheet made of the signup header row and of
    such rows only, a poll with a scope that is not empty and is not the
    nation (in any letter case) finds a blank State in every record, selects
    no candidate, and answers that there are no candidates to poll in the
    scope; it writes nothing. *)
Theorem state_poll_skips_signups (scope : string) (w : World) (cycle : Cycle)
    (sheet : string) (rows : list Row) :
  get_current_cycle w = Some cycle →
  sheet_for_phase cycle w = Some sheet →
  w !! sheet = Some (signup_headers :: rows) →
  Forall appended_by_signup rows →
  scope ≠ "" →
  PyStr.lower scope ≠ "nation" →
  Forall (λ record, dict_get record "State" blank = blank)
    (records_in (ws_read sheet w))
  ∧ poll scope w = (Say ("No candidates in " +:+ scope +:+ " to poll."), w).
Proof.
  intros Hc Hs Hsh Hrows Hscope Hnation.
  pose proof (appended_rows_fit rows Hrows) as Hfit.
  pose proof signup_names_clean as Hclean.
  change signup_headers with (map VStr signup_names) in Hsh.
  rewrite (ws_read_lookup _ _ _ Hsh), (table_records signup_names) by done.
  assert (Hstate : Forall (λ record, dict_get record "State" blank = blank)
                     (map (dict_zip signup_names) rows)).
  { apply Forall_forall. intros record Hin.
    apply list_elem_of_In, in_map_iff in Hin as (row & <- & _).
    apply signup_record_no_state. }
  split; [done|].
  unfold poll, handle, poll_body. py_unfold.
  rewrite Hc, Hs, get_all_records_safe_eq.
  rewrite (ws_read_lookup _ _ _ Hsh), (table_records signup_names) by done.
  rewrite bool_decide_false by done.
  rewrite py_filter_none.
  - simpl. f_equal. apply alter_id. intros sh' Hsh'.
    assert (sh' = map VStr signup_names :: rows) as -> by congruence.
    by apply table_normalise.
  - eapply Forall_impl; [exact Hstate|]. intros record Hrec. simpl.
    rewrite Hrec. simpl. rewrite bool_decide_false; [done|].
    intros Heq. by apply Hscope, lower_empty.
Qed.

Lemma state_poll_skips_signups_witness :
  Forall (λ record, dict_get record "State" blank = blank)
    (records_in (ws_read "All Signups" ava_signed_up))
  ∧ poll "Austin" ava_signed_up
    = (Say ("No candidates in " +:+ "Austin" +:+ " to poll."), ava_signed_up).
Proof.
  apply (state_poll_skips_signups "Austin" ava_signed_up
           {| year := 2024; signups_open := true; phase := "Primary" |}
           "All Signups" [ava_running]); try done.
  constructor; [|constructor].
  by exists 42, "Ava", "SEN-AU-1", "Independent", "Primary", (VStr "Senate").
Defined.

(** ** The national poll *)

Section Rounding.




End Rounding.

Section Shares.
Implicit Types (candidates : list RowDict) (t : Z) (zs : list Z).








End Shares.

Lemma poll_nation_run (w : World) (cycle : Cycle) (sheet : string) :
  get_current_cycle w = Some cycle →
  sheet_for_phase cycle w = Some sheet →
  poll_body "nation" w
  = (national cycle (records_in (ws_read sheet w)),
     alter normalise_header sheet w).
Proof.
  intros Hc Hs. unfold poll_body, national. py_unfold.
  rewrite Hc, Hs, get_all_records_safe_eq.
  change (bool_decide (PyStr.lower "nation" = "nation")) with true.
  cbv iota.
  destruct (List.filter (in_phase cycle) (records_in (ws_read sheet w)))
    as [|c candidates]; [done|].
  destruct (total_of (c :: candidates)) as [t|e]; [|done].
  cbn [Outcome_bind]. destruct (bool_decide (t = 0)); [done|].
  by destruct (py_map (poll_line t) (c :: candidates)).
Qed.


Example national_poll_of_two :
  (poll "nation" two_candidates).1
  = Say ("National Poll Results:" +:+ nl
         +:+ "Ava (Independent): 25.0%" +:+ nl
         +:+ "Bo (Democrats): 75.0%" +:+ nl).
Proof. by vm_compute. Qed.


(** ** Grouping into races *)

Section Grouping.
Implicit Types (races : list ((Cell * Cell) * list RowDict))
  (record : RowDict) (records : list RowDict) (key : Cell * Cell).



















End Grouping.

(** ** The tally on the rows of a table *)

Section TallyRows.
Context (names : list string).
Hypothesis Hclean : clean_names names.
Hypothesis Hwinner : names !! 9%nat = Some "Winner".
Implicit Types (w : World) (sheet : string) (stale cur : list Row)
  (row : Row) (v : Cell) (seat_id party : Cell) (winner : RowDict)
  (races : list ((Cell * Cell) * list RowDict)).
Local Abbreviation fits :=
  (Forall (λ r : list Cell, length r = length names)).














End TallyRows.



(** ** Digits and numerals *)

Section Numerals.
Implicit Types (s p : string) (x : N) (acc : Z) (a : ascii).

Lemma str_app_cons a p s : String a p +:+ s = String a (p +:+ s).
Proof. reflexivity. Qed.

Lemma str_app_assoc p q s : p +:+ (q +:+ s) = (p +:+ q) +:+ s.
Proof.
  induction p as [|a p IH]; [done|]. rewrite !str_app_cons. by f_equal.
Qed.

Lemma str_app_empty p : p +:+ "" = p.
Proof. induction p as [|a p IH]; [done|]. rewrite str_app_cons. by f_equal. Qed.

Lemma digits_app p s acc :
  PyStr.digits acc (p +:+ s) = PyStr.digits acc p ≫= λ v, PyStr.digits v s.
Proof.
  revert acc. induction p as [|a p IH]; intros acc; [done|].
  simpl. destruct (PyStr.digit a); [apply IH|done].
Qed.

Lemma all_digits_app p s :
  all_digits (p +:+ s) = all_digits p && all_digits s.
Proof.
  induction p as [|a p IH]; [done|]. simpl. rewrite IH. by rewrite andb_assoc.
Qed.

Lemma digit_pretty_N_char x :
  (x < 10)%N → PyStr.digit (pretty_N_char x) = Some (Z.of_N x).
Proof.
  intros H.
  assert (x = 0 ∨ x = 1 ∨ x = 2 ∨ x = 3 ∨ x = 4 ∨ x = 5 ∨ x = 6 ∨ x = 7
          ∨ x = 8 ∨ x = 9)%N as Hx by lia.
  repeat (destruct Hx as [->|Hx]; [done|]). by subst.
Qed.

(** What [pretty_N_go] puts in front of [s]: the decimal digits of [x]. *)
Lemma pretty_N_go_digits x :
  ∀ s, ∃ p, pretty_N_go x s = p +:+ s
            ∧ all_digits p = true
            ∧ ((0 < x)%N → p ≠ "")
            ∧ ∀ acc, ∃ k : Z, PyStr.digits acc p = Some (acc * k + Z.of_N x).
Proof.
  induction (N.lt_wf_0 x) as [x _ IH]; intros s.
  assert (x = 0 ∨ 0 < x)%N as [->|Hpos] by lia.
  { exists "". rewrite pretty_N_go_0. repeat split; [lia|].
    intros acc. exists 1. simpl. f_equal. lia. }
  rewrite pretty_N_go_step by done.
  destruct (IH (x `div` 10)%N (N.div_lt x 10 Hpos eq_refl)
              (String (pretty_N_char (x `mod` 10)) s))
    as (p & Heq & Hall & _ & Hval).
  rewrite Heq. clear Heq.
  assert (Hd := digit_pretty_N_char (x `mod` 10)%N
                  (N.mod_lt x 10 ltac:(done))).
  exists (p +:+ String (pretty_N_char (x `mod` 10)) "").
  split; [|split; [|split]].
  - by rewrite <- str_app_assoc.
  - rewrite all_digits_app, Hall. simpl. by rewrite Hd.
  - intros _. by destruct p.
  - intros acc. destruct (Hval acc) as [k Hk]. exists (k * 10).
    rewrite digits_app, Hk. simpl. rewrite Hd. simpl. f_equal.
    rewrite (N.div_mod x 10) at 3 by done. lia.
Qed.

Lemma pretty_N_digits x :
  all_digits (pretty x) = true ∧ pretty x ≠ ""
  ∧ PyStr.digits 0 (pretty x) = Some (Z.of_N x).
Proof.
  unfold pretty, pretty_N. case_decide as Hx; [by subst|].

  destruct (pretty_N_go_digits x "") as (p & Heq & Hall & Hne & Hval).
  rewrite Heq. clear Heq.
  rewrite str_app_empty.
  split; [done|]. split; [apply Hne; lia|].
  destruct (Hval 0) as [k Hk]. rewrite Hk. f_equal; lia.
Qed.

End Numerals.

Section Integers.
Implicit Types (z : Z) (s : string).

Lemma all_digits_lstrip s : all_digits s = true → PyStr.lstrip s = s.
Proof.
  destruct s as [|a s]; [done|]. simpl. intros [Ha _]%andb_true_iff.
  apply bool_decide_eq_true in Ha as [d Hd]. unfold PyStr.digit in Hd.
  unfold PyStr.is_space.
  destruct (_ && _)%N eqn:E in Hd; [|done].
  apply andb_true_iff in E as [E1 E2].
  apply N.leb_le in E1, E2.
  replace ((9 <=? PyStr.code a) && (PyStr.code a <=? 13)
           || (28 <=? PyStr.code a) && (PyStr.code a <=? 32))%N with false;
    [done|].
  symmetry. apply orb_false_iff. split; apply andb_false_iff; right;
    apply N.leb_gt; lia.
Qed.

Lemma all_digits_rstrip s : all_digits s = true → PyStr.rstrip s = s.
Proof.
  induction s as [|a s IH]; [done|]. simpl. intros [Ha Hs]%andb_true_iff.
  rewrite (IH Hs). destruct s; [|done].
  apply bool_decide_eq_true in Ha as [d Hd]. unfold PyStr.digit in Hd.
  unfold PyStr.is_space.
  destruct (_ && _)%N eqn:E in Hd; [|done].
  apply andb_true_iff in E as [E1 E2].
  apply N.leb_le in E1, E2.
  replace ((9 <=? PyStr.code a) && (PyStr.code a <=? 13)
           || (28 <=? PyStr.code a) && (PyStr.code a <=? 32))%N with false;
    [done|].
  symmetry. apply orb_false_iff. split; apply andb_false_iff; right;
    apply N.leb_gt; lia.
Qed.

Lemma all_digits_strip s : all_digits s = true → PyStr.strip s = s.
Proof.
  intros H. unfold PyStr.strip.
  by rewrite all_digits_lstrip, all_digits_rstrip.
Qed.

Lemma to_int_digits s :
  all_digits s = true → s ≠ "" → PyStr.to_int s = PyStr.digits 0 s.
Proof.
  intros Hall Hne. unfold PyStr.to_int. rewrite all_digits_strip by done.
  destruct s as [|a s]; [done|]. simpl in Hall.
  apply andb_true_iff in Hall as [Ha _].
  apply bool_decide_eq_true in Ha as [d Hd].
  destruct a as [[] [] [] [] [] [] [] []]; try done.
Qed.

Lemma to_int_minus s :
  all_digits s = true → s ≠ "" →
  PyStr.to_int ("-" +:+ s) = Z.opp <$> PyStr.digits 0 s.
Proof.
  intros Hall Hne. unfold PyStr.to_int, PyStr.strip.
  change (PyStr.lstrip ("-" +:+ s)) with (String "-" s).
  change (PyStr.rstrip (String "-" s))
    with (match PyStr.rstrip s with
          | EmptyString => String "-" EmptyString
          | r => String "-" r
          end).
  rewrite all_digits_rstrip by done. by destruct s.
Qed.

(** [int(str(z))] is [z]. *)
Lemma to_int_pretty z : PyStr.to_int (pretty z) = Some z.
Proof.
  destruct z as [|p|p]; [done|..];
    destruct (pretty_N_digits (N.pos p)) as (Hall & Hne & Hval).
  - change (pretty (Z.pos p)) with (pretty (N.pos p)).
    by rewrite to_int_digits, Hval.
  - change (pretty (Z.neg p)) with ("-" +:+ pretty (N.pos p)).
    by rewrite to_int_minus, Hval.
Qed.


End Integers.

(** ** Retries of a call *)

Section Retries.
Context {A : Type} (func : nat → Attempt A) (max_retries initial_delay : Z).
Hypothesis Hdelay : (0 ≤ initial_delay)%Z.
Implicit Types (k n attempt remaining : nat) (naps : list Z).

Lemma backoff_S k :
  backoff initial_delay (S k)
  = backoff initial_delay k ++ [initial_delay * 2 ^ Z.of_nat k].
Proof. unfold backoff. by rewrite seq_S, map_app. Qed.

Lemma Zsum_app (l1 l2 : list Z) : Zsum (l1 ++ l2) = Zsum l1 + Zsum l2.
Proof. induction l1 as [|z l1 IH]; simpl; [done|]. rewrite IH. lia. Qed.

Lemma Zsum_backoff k :
  Zsum (backoff initial_delay k) = initial_delay * (2 ^ Z.of_nat k - 1).
Proof.
  induction k as [|k IH]; [simpl; lia|].
  rewrite backoff_S, Zsum_app, IH. simpl.
  rewrite Nat2Z.inj_succ, Z.pow_succ_r by lia. lia.
Qed.

(** The loop passes over transient failures, sleeping before each new
    attempt, as long as attempts remain. *)
Lemma retry_loop_skip k :
  ∀ remaining attempt naps,
    (k < remaining)%nat →
    Z.of_nat (attempt + remaining) = max_retries →
    (∀ j, (j < k)%nat → transient (func (attempt + j))) →
    naps = backoff initial_delay attempt →
    retry_loop func max_retries initial_delay remaining attempt naps
    = retry_loop func max_retries initial_delay (remaining - k) (attempt + k)
        (backoff initial_delay (attempt + k)).
Proof.
  induction k as [|k IH]; intros remaining attempt naps Hk Hmax Htr ->.
  { by rewrite Nat.sub_0_r, Nat.add_0_r. }
  destruct remaining as [|remaining]; [lia|].
  destruct (Htr 0%nat) as (msg & Hmsg & Hauth); [lia|].
  rewrite Nat.add_0_r in Hmsg. cbn [retry_loop]. rewrite Hmsg, Hauth.
  rewrite bool_decide_false by lia.
  rewrite bool_decide_false by (pose proof (Z.pow_nonneg 2 (Z.of_nat attempt)); nia).
  rewrite <- backoff_S.
  rewrite (IH remaining (S attempt) _); [|lia|lia| |done].
  - replace (attempt + S k)%nat with (S attempt + k)%nat by lia. done.
  - intros j Hj. replace (S attempt + j)%nat with (attempt + S j)%nat by lia.
    apply Htr. lia.
Qed.

End Retries.

Section RetryResults.
Context {A : Type} (func : nat → Attempt A) (max_retries initial_delay : Z).
Hypothesis Hdelay : (0 ≤ initial_delay)%Z.
Implicit Types (k : nat) (a : A).

Lemma retry_skip k :
  (Z.of_nat k < max_retries)%Z →
  (∀ j, (j < k)%nat → transient (func j)) →
  retry_api_call func max_retries initial_delay
  = retry_loop func max_retries initial_delay (Z.to_nat max_retries - k) k
      (backoff initial_delay k).
Proof.
  intros Hk Htr. unfold retry_api_call.
  by rewrite (retry_loop_skip func max_retries initial_delay Hdelay k)
    by (done || lia).
Qed.

(** X1. The value of the first call that succeeds is returned, after the
    transient failures before it, if that call is among the first
    [max_retries]: [func] has been called [k + 1] times, and the bot slept
    before each new attempt, [initial_delay * (2 ^ k - 1)] seconds in all. *)
Theorem retry_returns_first_success k a :
  (Z.of_nat k < max_retries)%Z →
  (∀ j, (j < k)%nat → transient (func j)) →
  func k = Returns a →
  retry_api_call func max_retries initial_delay
  = mkRetry (Returned a) (S k) (backoff initial_delay k)
  ∧ Zsum (backoff initial_delay k) = initial_delay * (2 ^ Z.of_nat k - 1).
Proof.
  intros Hk Htr Hret. split; [|by apply Zsum_backoff].
  rewrite (retry_skip k) by done.
  destruct (Z.to_nat max_retries - k)%nat as [|n] eqn:E; [lia|].
  cbn [retry_loop]. by rewrite Hret.
Qed.

(** X2. When the first [max_retries] calls all fail transiently, the error of
    the last one is raised again: [func] has been called [max_retries]
    times and not once more, with a sleep between two attempts and none
    after the last. *)
Theorem retry_gives_up n (msg : string) :
  max_retries = Z.of_nat (S n) →
  (∀ j, (j ≤ n)%nat → transient (func j)) →
  func n = ApiError msg →
  retry_api_call func max_retries initial_delay
  = mkRetry (ReRaised msg) (S n) (backoff initial_delay n).
Proof.
  intros Hmax Htr Hlast.
  rewrite (retry_skip n) by (try lia; intros; apply Htr; lia).
  destruct (Z.to_nat max_retries - n)%nat as [|r] eqn:E; [lia|].
  cbn [retry_loop]. rewrite Hlast.
  destruct (Htr n) as (msg' & Hmsg' & Hauth); [lia|].
  assert (msg' = msg) as -> by congruence. rewrite Hauth.
  by rewrite bool_decide_true by lia.
Qed.

(** X3. An [APIError] that mentions an invalid authentication, in any letter
    case, is not retried: the call ends at once with the authentication
    error, whatever number of attempts is left. *)
Theorem retry_stops_on_authentication k (msg : string) :
  (Z.of_nat k < max_retries)%Z →
  (∀ j, (j < k)%nat → transient (func j)) →
  func k = ApiError msg →
  py_contains "invalid authentication" (PyStr.lower msg) = true →
  retry_api_call func max_retries initial_delay
  = mkRetry AuthenticationError (S k) (backoff initial_delay k).
Proof.
  intros Hk Htr Hmsg Hauth.
  rewrite (retry_skip k) by done.
  destruct (Z.to_nat max_retries - k)%nat as [|n] eqn:E; [lia|].
  cbn [retry_loop]. by rewrite Hmsg, Hauth.
Qed.

End RetryResults.

Lemma retry_loop_calls {A} (func func' : nat → Attempt A)
    (max_retries initial_delay : Z) (remaining : nat) :
  ∀ (attempt : nat) (naps : list Z),
    (∀ j, (attempt ≤ j < attempt + remaining)%nat → func j = func' j) →
    retry_loop func max_retries initial_delay remaining attempt naps
    = retry_loop func' max_retries initial_delay remaining attempt naps
    ∧ (calls (retry_loop func max_retries initial_delay remaining attempt naps)
       ≤ attempt + remaining)%nat.
Proof.
  induction remaining as [|remaining IH]; intros attempt naps Hsame.
  { simpl. split; [done|lia]. }
  cbn [retry_loop]. rewrite <- (Hsame attempt) by lia.
  destruct (func attempt) as [a|msg|e]; [simpl; split; [done|lia]| |simpl; split; [done|lia]].
  destruct (py_contains _ _); [simpl; split; [done|lia]|].
  case_bool_decide; [simpl; split; [done|lia]|].
  case_bool_decide; [simpl; split; [done|lia]|].
  destruct (IH (S attempt) (naps ++ [initial_delay * 2 ^ Z.of_nat attempt]))
    as [-> Hle]; [intros j Hj; apply Hsame; lia|].
  split; [done|].
  destruct (IH (S attempt) (naps ++ [initial_delay * 2 ^ Z.of_nat attempt]))
    as [_ Hle']; [intros j Hj; apply Hsame; lia|].
  lia.
Qed.

(** X4. [retry_api_call] makes at most [max_retries] calls: what it does
    depends on the first [max_retries] calls of [func] only, and with
    [max_retries] zero or negative it returns [None] without a call. *)
Theorem retry_calls_bounded {A} (func func' : nat → Attempt A)
    (max_retries initial_delay : Z) :
  (∀ j, (Z.of_nat j < max_retries)%Z → func j = func' j) →
  retry_api_call func max_retries initial_delay
  = retry_api_call func' max_retries initial_delay
  ∧ (Z.of_nat (calls (retry_api_call func max_retries initial_delay))
     ≤ Z.max max_retries 0)%Z
  ∧ ((max_retries ≤ 0)%Z →
     retry_api_call func max_retries initial_delay = mkRetry ReturnedNone 0 []).
Proof.
  intros Hsame. unfold retry_api_call.
  destruct (retry_loop_calls func func' max_retries initial_delay
              (Z.to_nat max_retries) 0 []) as [Heq Hle].
  { intros j Hj. apply Hsame. lia. }
  split; [done|]. split; [lia|].
  intros Hneg. by replace (Z.to_nat max_retries) with 0%nat by lia.
Qed.

(** ** The fields of the cycle *)

Section CycleFields.
Implicit Types (w : World) (sh : Sheet) (y : Z).

(** The year that [get_current_cycle] reads in a Cycles worksheet. *)
Lemma get_current_cycle_Some w sh y (g3 : string) :
  w !! "Cycles" = Some sh →
  match acell G2 sh with None => Some 1990 | Some v => PyStr.to_int v end
    = Some y →
  acell G3 sh = Some g3 →
  get_current_cycle w
  = Some {| year := y; signups_open := bool_decide (PyStr.lower g3 = "true");
            phase := default "Primary" (acell G4 sh) |}.
Proof.
  intros Hsh Hy Hg3. unfold get_current_cycle.
  rewrite (get_sheet_Some _ _ _ Hsh), (ws_read_lookup _ _ _ Hsh).
  by rewrite Hy, Hg3.
Qed.

Lemma acell_update_cell_int (i j : nat) (z : Z) sh :
  (0 < i)%nat → (0 < j)%nat →
  acell (i, j) (update_cell i j (VInt z) sh) = Some (pretty z).
Proof.
  intros. unfold acell. simpl. rewrite cell_at_update_cell_eq by done.
  simpl. destruct (pretty z) eqn:E; [|done].
  pose proof (to_int_pretty z) as H'. by rewrite E in H'.
Qed.


(** X6. Writing a year with [update_cycle_year], or a phase with
    [update_phase], and reading the cycle back gives what was written, the
    other fields being those of the worksheet; the empty phase reads back as
    Primary. *)
Theorem cycle_fields_round_trip w sh (g3 : string) :
  w !! "Cycles" = Some sh →
  acell G3 sh = Some g3 →
  (∀ new_year : Z,
     get_current_cycle (update_cycle_year new_year w).2
     = Some {| year := new_year;
               signups_open := bool_decide (PyStr.lower g3 = "true");
               phase := default "Primary" (acell G4 sh) |})
  ∧ (∀ (new_phase : string) y,
       match acell G2 sh with None => Some 1990 | Some v => PyStr.to_int v end
         = Some y →
       get_current_cycle (update_phase new_phase w).2
       = Some {| year := y;
                 signups_open := bool_decide (PyStr.lower g3 = "true");
                 phase := if decide (new_phase = "") then "Primary"
                          else new_phase |}).
Proof.
  intros Hsh Hg3. split.
  - intros new_year.
    unfold update_cycle_year. rewrite (get_sheet_Some _ _ _ Hsh).
    etrans;
      [apply (get_current_cycle_Some _ (update_cell 2 7 (VInt new_year) sh)
                new_year g3)|].
    + unfold ws_write. simpl. by rewrite lookup_alter_eq, Hsh.
    + change G2 with (2, 7)%nat. rewrite acell_update_cell_int by lia.
      apply to_int_pretty.
    + by rewrite (acell_update_cell_ne 2 7 G3) by (simpl; lia).
    + by rewrite (acell_update_cell_ne 2 7 G4) by (simpl; lia).
  - intros new_phase y Hy.
    unfold update_phase. rewrite (get_sheet_Some _ _ _ Hsh).
    etrans;
      [apply (get_current_cycle_Some _ (update_cell 4 7 (VStr new_phase) sh)
                y g3)|].
    + unfold ws_write. simpl. by rewrite lookup_alter_eq, Hsh.
    + by rewrite (acell_update_cell_ne 4 7 G2) by (simpl; lia).
    + by rewrite (acell_update_cell_ne 4 7 G3) by (simpl; lia).
    + do 2 f_equal. unfold acell. change G4 with (4, 7)%nat. cbn [fst snd].
      rewrite cell_at_update_cell_eq by lia. simpl.
      by destruct new_phase.
Qed.

End CycleFields.

(** ** Cleaned headers *)

(** ** Cleaned headers are clean *)

Section Stripping.
Implicit Types (s p q : string) (a : ascii).

Lemma lstrip_head a s :
  PyStr.is_space a = false → PyStr.lstrip (String a s) = String a s.
Proof. intros H. simpl. by rewrite H. Qed.

(** [rstrip] keeps the first character or leaves nothing. *)
Lemma rstrip_cases a s :
  (PyStr.rstrip (String a s) = "" ∧ PyStr.is_space a = true
   ∧ PyStr.rstrip s = "")
  ∨ PyStr.rstrip (String a s) = String a (PyStr.rstrip s).
Proof.
  simpl. destruct (PyStr.rstrip s) eqn:E; [|by right].
  destruct (PyStr.is_space a); [by left|by right].
Qed.

Lemma rstrip_idemp s : PyStr.rstrip (PyStr.rstrip s) = PyStr.rstrip s.
Proof.
  induction s as [|a s IH]; [done|].
  destruct (rstrip_cases a s) as [(-> & _ & _)|Heq]; [done|].
  rewrite Heq. simpl. rewrite IH.
  destruct (PyStr.rstrip s) eqn:E; [|done].
  simpl in Heq. rewrite E in Heq.
  destruct (PyStr.is_space a); [done|done].
Qed.

Lemma lstrip_idemp s : PyStr.lstrip (PyStr.lstrip s) = PyStr.lstrip s.
Proof.
  induction s as [|a s IH]; [done|]. simpl.
  destruct (PyStr.is_space a) eqn:E; [done|]. simpl. by rewrite E.
Qed.

Lemma lstrip_rstrip s :
  PyStr.lstrip s = s → PyStr.lstrip (PyStr.rstrip s) = PyStr.rstrip s.
Proof.
  destruct s as [|a s]; [done|]. intros H.
  destruct (PyStr.is_space a) eqn:E.
  - simpl in H. rewrite E in H.
    assert (Hlen : (String.length (PyStr.lstrip s) ≤ String.length s)%nat).
    { clear. induction s as [|b s IH]; [done|]. simpl.
      destruct (PyStr.is_space b); simpl; lia. }
    rewrite H in Hlen. simpl in Hlen. lia.
  - destruct (rstrip_cases a s) as [(_ & Hsp & _)|Heq]; [congruence|].
    rewrite Heq. by apply lstrip_head.
Qed.

Lemma strip_trimmed s : trimmed (PyStr.strip s).
Proof.
  unfold trimmed, PyStr.strip.
  rewrite lstrip_rstrip by apply lstrip_idemp. apply rstrip_idemp.
Qed.

Lemma trimmed_lstrip s : trimmed s → PyStr.lstrip s = s.
Proof.
  unfold trimmed, PyStr.strip. intros H. rewrite <- H at 1.
  rewrite lstrip_rstrip by apply lstrip_idemp. done.
Qed.

Lemma trimmed_rstrip s : trimmed s → PyStr.rstrip s = s.
Proof.
  unfold trimmed, PyStr.strip. intros H. rewrite <- H at 1.
  by rewrite rstrip_idemp.
Qed.

Lemma rstrip_app p q :
  PyStr.rstrip q = q → q ≠ "" → PyStr.rstrip (p +:+ q) = p +:+ q.
Proof.
  intros Hq Hne. induction p as [|a p IH]; [done|].
  rewrite str_app_cons. simpl. rewrite IH.
  destruct (p +:+ q) eqn:E; [|done]. by destruct p, q.
Qed.

Lemma lstrip_app p q :
  PyStr.lstrip p = p → p ≠ "" → PyStr.lstrip (p +:+ q) = p +:+ q.
Proof.
  destruct p as [|a p]; [done|]. intros H _. rewrite str_app_cons.
  simpl in *. destruct (PyStr.is_space a) eqn:E; [|done].
  assert (Hlen : (String.length (PyStr.lstrip p) ≤ String.length p)%nat).
  { clear. induction p as [|b s IH]; [done|]. simpl.
    destruct (PyStr.is_space b); simpl; lia. }
  rewrite H in Hlen. simpl in Hlen. lia.
Qed.

Lemma trimmed_app p q :
  trimmed p → p ≠ "" → trimmed q → q ≠ "" → trimmed (p +:+ q).
Proof.
  intros Hp Hpne Hq Hqne. unfold trimmed, PyStr.strip.
  rewrite lstrip_app by auto using trimmed_lstrip.
  apply rstrip_app; auto using trimmed_rstrip.
Qed.

Lemma trimmed_digits s : all_digits s = true → trimmed s.
Proof. apply all_digits_strip. Qed.

Lemma trimmed_pretty_nat (n : nat) : trimmed (pretty n) ∧ pretty n ≠ "".
Proof.
  destruct (pretty_N_digits (N.of_nat n)) as (Hall & Hne & _).
  split; [by apply trimmed_digits|done].
Qed.

End Stripping.

Section CleanHeaders.
Implicit Types (header_row cleaned : list string) (i : nat)
  (header_count : gmap string nat) (sh : Sheet).

Lemma neat_app (p q : string) : neat p → neat q → neat (p +:+ q).
Proof.
  intros [? ?] [? ?]. split; [by apply trimmed_app|by destruct p].
Qed.

Lemma neat_pretty_nat (n : nat) : neat (pretty n).
Proof. apply trimmed_pretty_nat. Qed.

Lemma clean_headers_from_neat i header_row :
  Forall neat (clean_headers_from i header_row).
Proof.
  revert i. induction header_row as [|h t IH]; intros i; simpl; [constructor|].
  constructor; [|apply IH]. case_decide as Hblank.
  - apply neat_app; [by split|apply neat_pretty_nat].
  - split; [apply strip_trimmed|done].
Qed.

Lemma dedup_headers_neat header_count cleaned :
  Forall neat cleaned → Forall neat (dedup_headers header_count cleaned).
Proof.
  intros H. revert header_count.
  induction H as [|h t Hh Ht IH]; intros header_count; simpl; [constructor|].
  destruct (header_count !! h); constructor; auto.
  apply neat_app; [done|]. apply neat_app; [by split|apply neat_pretty_nat].
Qed.

Lemma final_headers_neat header_row : Forall neat (final_headers header_row).
Proof. apply dedup_headers_neat, clean_headers_from_neat. Qed.

(** The first loop leaves neat headers alone. *)
Lemma clean_headers_from_neat_id i cleaned :
  Forall neat cleaned → clean_headers_from i cleaned = cleaned.
Proof.
  intros H. revert i. induction H as [|h t [Hh Hne] _ IH]; intros i; [done|].
  simpl. rewrite IH. unfold trimmed in Hh. rewrite Hh.
  by rewrite decide_False.
Qed.

(** The second loop leaves alone names that are pairwise different and
    have not been counted. *)
Lemma dedup_headers_NoDup_id header_count cleaned :
  NoDup cleaned → (∀ h, h ∈ cleaned → header_count !! h = None) →
  dedup_headers header_count cleaned = cleaned.
Proof.
  intros Hnd. revert header_count.
  induction Hnd as [|h t Hh _ IH]; intros header_count Hfresh; [done|].
  simpl. rewrite Hfresh by left. f_equal. apply IH.
  intros h' Hin. rewrite lookup_insert_ne; [apply Hfresh; by right|].
  intros ->. done.
Qed.

(** Cleaned headers that are pairwise different are left alone. *)
Lemma final_headers_fixed header_row :
  NoDup (final_headers header_row) →
  final_headers (final_headers header_row) = final_headers header_row.
Proof.
  intros Hnd. unfold final_headers at 1, cleaned_headers.
  rewrite clean_headers_from_neat_id by apply final_headers_neat.
  by apply dedup_headers_NoDup_id.
Qed.

End CleanHeaders.

(** X7. The cleaned headers are as many as the cells of the header row;
    none is empty and none begins or ends with white space; and when they
    are pairwise different, cleaning them once more changes nothing. *)
Theorem final_headers_clean (header_row : list string) :
  length (final_headers header_row) = length header_row
  ∧ Forall (λ h, h ≠ "" ∧ PyStr.strip h = h) (final_headers header_row)
  ∧ (NoDup (final_headers header_row) →
     final_headers (final_headers header_row) = final_headers header_row).
Proof.
  split; [apply final_headers_length|]. split.
  - eapply Forall_impl; [apply final_headers_neat|]. by intros h [? ?].
  - intros Hnd. unfold final_headers at 1, cleaned_headers.
    rewrite clean_headers_from_neat_id by apply final_headers_neat.
    apply dedup_headers_NoDup_id; [done|]. intros h _. apply lookup_empty.
Qed.

(** ** Reading the records twice *)

Section ReadingTwice.
Implicit Types (w : World) (sh : Sheet) (sheet : string).

Lemma fill_gaps_length sh : length (fill_gaps sh) = length sh.
Proof. unfold fill_gaps. by rewrite length_map. Qed.

Lemma get_all_values_length sh : length (get_all_values sh) = length sh.
Proof. unfold get_all_values. by rewrite length_map, fill_gaps_length. Qed.



Lemma width_cons (r : Row) sh : width (r :: sh) = (length r `max` width sh)%nat.
Proof. reflexivity. Qed.

(** The header row that is read: the first row of the rectangle. *)
Lemma header_row_length sh :
  length (hd [] (get_all_values sh)) = match sh with [] => 0%nat | _ => width sh end.
Proof.
  destruct sh as [|r sh]; [done|].
  unfold get_all_values, fill_gaps. simpl.
  rewrite length_map, pad_to_length. rewrite width_cons. lia.
Qed.

(** Once the cleaned headers are written, they are the header row. *)
Lemma header_row_written (r : Row) sh (final : list string) :
  length final = width (r :: sh) →
  update_A1 (VStr <$> final) (r :: sh) = (VStr <$> final) :: sh
  ∧ hd [] (get_all_values ((VStr <$> final) :: sh)) = final.
Proof.
  intros Hlen. rewrite width_cons in Hlen. split.
  - simpl. rewrite length_fmap, drop_ge by lia. by rewrite app_nil_r.
  - unfold get_all_values, fill_gaps. simpl.
    rewrite pad_to_full.
    + rewrite <- list_fmap_compose. apply list_fmap_id.
    + rewrite width_cons, length_fmap. lia.
Qed.

(** What reading leaves and returns, for a worksheet of two rows or more. *)
Lemma records_in_rows sh :
  (2 ≤ length sh)%nat →
  records_in sh
  = get_all_records (final_headers (hd [] (get_all_values sh)))
      (normalise_header sh).
Proof.
  intros H. unfold records_in. rewrite get_all_values_length.
  by rewrite bool_decide_false by lia.
Qed.

Lemma normalise_header_rows (r : Row) sh :
  (2 ≤ length (r :: sh))%nat →
  normalise_header (r :: sh) = r :: sh
  ∨ normalise_header (r :: sh)
    = (VStr <$> final_headers (hd [] (get_all_values (r :: sh)))) :: sh.
Proof.
  intros H. unfold normalise_header. rewrite get_all_values_length.
  rewrite bool_decide_false by lia. cbv zeta.
  case_bool_decide as Hfin; [right|by left].
  apply header_row_written.
  by rewrite final_headers_length, header_row_length.
Qed.

Lemma normalise_header_idemp sh :
  NoDup (final_headers (hd [] (get_all_values sh))) →
  normalise_header (normalise_header sh) = normalise_header sh
  ∧ records_in (normalise_header sh) = records_in sh.
Proof.
  intros Hnd.
  destruct (decide (2 ≤ length sh)%nat) as [Hrows|Hrows].
  2:{ assert (normalise_header sh = sh) as Hsame; [|by rewrite !Hsame].
      unfold normalise_header. rewrite get_all_values_length.
      by rewrite bool_decide_true by lia. }
  destruct sh as [|r sh]; [simpl in Hrows; lia|].
  destruct (normalise_header_rows r sh Hrows) as [Heq|Heq].
  { by rewrite !Heq. }
  pose proof (final_headers_length (hd [] (get_all_values (r :: sh)))) as Hlen.
  pose proof (final_headers_fixed _ Hnd) as Hid.
  rewrite header_row_length in Hlen.
  destruct (header_row_written r sh _ Hlen) as [_ Hhd].
  rewrite (records_in_rows (r :: sh)) by done.
  rewrite Heq.
  assert (Hclean : normalise_header
                     ((VStr <$> final_headers (hd [] (get_all_values (r :: sh))))
                        :: sh)
                   = (VStr <$> final_headers (hd [] (get_all_values (r :: sh))))
                       :: sh).
  { apply normalise_header_clean. by rewrite Hhd. }
  split; [done|].
  rewrite records_in_rows by (simpl in *; lia).
  by rewrite Hclean, Hhd, Hid.
Qed.

(** X9. When the cleaned headers of a worksheet are pairwise different,
    reading its records a second time writes nothing and returns the same
    records. *)
Theorem get_all_records_safe_twice sheet w :
  NoDup (final_headers (hd [] (get_all_values (ws_read sheet w)))) →
  get_all_records_safe sheet (get_all_records_safe sheet w).2
  = get_all_records_safe sheet w.
Proof.
  intros Hnd. rewrite !get_all_records_safe_eq. cbn [snd].
  destruct (normalise_header_idemp _ Hnd) as [Hn Hr].
  rewrite ws_read_normalise_eq, Hr. f_equal.
  destruct (w !! sheet) as [sh|] eqn:Hsh.
  - rewrite (ws_read_lookup _ _ _ Hsh) in Hn.
    rewrite alter_alter_eq. apply alter_ext.
    intros x Hx. assert (x = sh) as -> by congruence. done.
  - rewrite (alter_absent _ _ w) by done. by rewrite alter_absent.
Qed.

End ReadingTwice.

(** ** Eligible seats *)

Section Kept.
Implicit Types (w : World) (s sheet : string).

Lemma data_rows_kept_refl w : data_rows_kept w w.
Proof. by intros s. Qed.

Lemma data_rows_kept_trans w1 w2 w3 :
  data_rows_kept w1 w2 → data_rows_kept w2 w3 → data_rows_kept w1 w3.
Proof.
  intros H12 H23 s. destruct (H12 s) as [? ?], (H23 s) as [? ?].
  split; congruence.
Qed.

Lemma data_rows_kept_normalise sheet w :
  data_rows_kept w (alter normalise_header sheet w).
Proof. exact (proj1 (normalise_writes_header_only sheet w)). Qed.

Lemma data_rows_kept_read sheet w :
  data_rows_kept w (get_all_records_safe sheet w).2.
Proof. rewrite get_all_records_safe_eq. apply data_rows_kept_normalise. Qed.

Lemma get_current_cycle_alter (f : Sheet → Sheet) sheet w :
  sheet ≠ "Cycles" →
  get_current_cycle (alter f sheet w) = get_current_cycle w.
Proof.
  intros Hne. unfold get_current_cycle. rewrite get_sheet_alter.
  destruct (get_sheet "Cycles" w) as [cycles_sheet|] eqn:E; [|done].
  apply get_sheet_inv in E as [-> _]. by rewrite ws_read_alter_ne.
Qed.

End Kept.

Section Filters.
Context {A : Type}.
Implicit Types (f : A → Outcome bool) (g : A → bool) (l : list A).




End Filters.

Section Seats.
Implicit Types (w : World) (year : Z) (state : string) (r : RowDict).



End Seats.

(** ** The answers of signup *)

Section SignupRuns.
Implicit Types (w : World) (user_id : Z) (state name party : string).


Lemma get_eligible_seats_kept year state w :
  data_rows_kept w (get_eligible_seats year state w).2.
Proof.
  unfold get_eligible_seats.
  destruct (get_sheet "Cycles" w) as [cycles_sheet|] eqn:E;
    [|apply data_rows_kept_refl].
  py_unfold. rewrite get_all_records_safe_eq.
  case_bool_decide; [|apply data_rows_kept_normalise].
  destruct (py_filter _ _); apply data_rows_kept_normalise.
Qed.

Lemma free_to_run_signups user_id w :
  free_to_run user_id w →
  existsb (λ record, is_user (pretty user_id) record
                     && negb (winner_in ["Withdrawn"; "Loser"] record))
    (records_in (ws_read "All Signups" w)) = false.
Proof.
  intros [Hs _]. apply not_true_is_false. intros Hex.
  apply existsb_exists in Hex as (record & Hin & Htest).
  apply list_elem_of_In in Hin. apply (Hs record Hin).
  apply andb_true_iff in Htest as [Hu Hw]. split; [by rewrite Hu|].
  apply negb_true_iff in Hw. unfold winner_in in Hw.
  by apply bool_decide_eq_false in Hw.
Qed.

Lemma free_to_run_winners user_id w :
  free_to_run user_id w →
  existsb (is_user (pretty user_id)) (records_in (ws_read "All Winners" w))
  = false.
Proof.
  intros [_ Hw]. apply not_true_is_false. intros Hex.
  apply existsb_exists in Hex as (record & Hin & Htest).
  apply list_elem_of_In in Hin. apply (Hw record Hin). by rewrite Htest.
Qed.

Lemma free_to_run_intro user_id w :
  existsb (λ record, is_user (pretty user_id) record
                     && negb (winner_in ["Withdrawn"; "Loser"] record))
    (records_in (ws_read "All Signups" w)) = false →
  existsb (is_user (pretty user_id)) (records_in (ws_read "All Winners" w))
  = false →
  free_to_run user_id w.
Proof.
  intros Hs Hw. split; intros record Hin Hopen.
  - rewrite (existsb_elem _ _ record Hin) in Hs; [done|].
    by apply open_record_signups.
  - rewrite (existsb_elem _ _ record Hin) in Hw; [done|].
    by destruct (is_user _ _).
Qed.





End SignupRuns.

(** Closes a goal [data_rows_kept w w'] where [w'] is [w] after reads. *)
Ltac kept :=
  repeat first
    [ apply data_rows_kept_refl
    | apply data_rows_kept_normalise
    | apply get_eligible_seats_kept
    | eapply data_rows_kept_trans; [|apply data_rows_kept_normalise]
    | eapply data_rows_kept_trans; [|apply get_eligible_seats_kept] ].

Section SignupWrites.
Implicit Types (w : World) (user_id : Z) (state name party : string).

(** [signup] appends no row and changes no data row. *)
Lemma signup_reads_only user_id state name party w :
  data_rows_kept w (signup user_id state name party w).2.
Proof.
  unfold signup, handle, signup_body. py_unfold.
  destruct (get_sheet "All Signups" w) as [signups_sheet|] eqn:Hs;
    [|simpl; kept].
  rewrite get_all_records_safe_eq.
  destruct (existsb _ (records_in (ws_read signups_sheet w))); [simpl; kept|].
  assert (Hwin : ∃ records w2,
    match get_sheet "All Winners" w with
    | Some winners_sheet => get_all_records_safe winners_sheet
    | None => λ w, (Ok [], w)
    end (alter normalise_header signups_sheet w)
    = (Ok records, w2) ∧ data_rows_kept w w2).
  { destruct (get_sheet "All Winners" w) as [winners_sheet|].
    - rewrite get_all_records_safe_eq. do 2 eexists. split; [done|]. kept.
    - do 2 eexists. split; [done|]. kept. }
  destruct Hwin as (records & w2 & -> & Hkept).
  destruct (existsb (is_user (pretty user_id)) records); [done|].
  destruct (get_current_cycle w2) as [cycle|]; [|done].
  destruct (negb (signups_open cycle)); [done|].
  pose proof (get_eligible_seats_kept (year cycle) state w2) as Hk.
  destruct (get_eligible_seats (year cycle) state w2) as [[seats|e] w'];
    simpl in Hk; [|by eapply data_rows_kept_trans].
  destruct seats as [|s l]; [by eapply data_rows_kept_trans|].
  destruct (py_map seat_label (s :: l)); [|by eapply data_rows_kept_trans].
  destruct (py_map seat_button (take 25 (s :: l)));
    by eapply data_rows_kept_trans.
Qed.

(** The reply to a user who is free to run when the cycle is unreadable or
    the signups are closed. *)
Lemma signup_not_open user_id state name party w (reply : string) :
  is_Some (w !! "All Signups") → free_to_run user_id w →
  (get_current_cycle w = None ∧ reply = "Error accessing cycle data.")
  ∨ (∃ cycle, get_current_cycle w = Some cycle ∧ signups_open cycle = false
              ∧ reply = "Signups are closed!") →
  (signup user_id state name party w).1 = Say reply.
Proof.
  intros [sh Hsh] Hfree Hcase.
  unfold signup, handle, signup_body; py_unfold.
  rewrite (get_sheet_Some _ _ _ Hsh), get_all_records_safe_eq.
  rewrite (free_to_run_signups _ _ Hfree).
  destruct (get_sheet "All Winners" w) as [winners_sheet|] eqn:Hws;
    [apply get_sheet_inv in Hws as [-> _];
     rewrite get_all_records_safe_eq, ws_read_alter_ne by done;
     rewrite (free_to_run_winners _ _ Hfree)
    |cbn [existsb]];
    rewrite !get_current_cycle_alter by done;
    destruct Hcase as [[-> ->]|(cycle & -> & Hclosed & ->)];
    by rewrite ?Hclosed.
Qed.

(** X12. A user who is free to run is told that signups are closed when they
    are, and that the cycle data cannot be accessed when the cycle is
    unreadable. *)
Theorem signup_closed user_id state name party w :
  is_Some (w !! "All Signups") → free_to_run user_id w →
  (get_current_cycle w = None →
   (signup user_id state name party w).1 = Say "Error accessing cycle data.")
  ∧ (∀ cycle, get_current_cycle w = Some cycle → signups_open cycle = false →
     (signup user_id state name party w).1 = Say "Signups are closed!").
Proof.
  intros Hsh Hfree. split.
  - intros Hcyc. apply signup_not_open; [done..|]. by left.
  - intros cycle Hcyc Hclosed. apply signup_not_open; [done..|].
    right. by exists cycle.
Qed.

End SignupWrites.

(** ** The seat buttons *)

Section SeatCallback.
Implicit Types (w : World) (user_id : Z) (state name party seat_id : string)
  (view : SeatView) (selected : RowDict) (office : Cell).

(** The callback for a user who is free to run, on a seat of the view that
    has an office. *)
Lemma seat_callback_run user_id state name party view seat_id w selected office :
  is_Some (w !! "All Signups") →
  free_to_run user_id w →
  List.find (λ s, bool_decide (dict_get s "Seat ID" blank = VStr seat_id))
    (view_seats view) = Some selected →
  selected !! "Office" = Some office →
  seat_callback "All Signups" user_id state name party view seat_id w
  = (Say (name +:+ " signed up for " +:+ seat_id +:+ " ("
          +:+ py_str office +:+ ") in " +:+ state +:+ " as " +:+ party +:+ "!"),
     let w2 := alter normalise_header "All Winners"
                 (alter normalise_header "All Signups" w) in
     match get_current_cycle w with
     | Some cycle =>
         alter (append_row
                  (signup_row user_id name seat_id party (phase cycle) office))
           "All Signups" w2
     | None => w2
     end).
Proof.
  intros [sh Hsh] Hfree Hfind Hoffice.
  unfold seat_callback, handle, seat_callback_body. rewrite Hfind.
  py_unfold. rewrite get_all_records_safe_eq, get_sheet_alter.
  rewrite (free_to_run_signups _ _ Hfree).
  assert (Hwin :
    match get_sheet "All Winners" w with
    | Some winners_sheet => get_all_records_safe winners_sheet
    | None => λ w, (Ok [], w)
    end (alter normalise_header "All Signups" w)
    = (Ok (records_in (ws_read "All Winners" w)),
       alter normalise_header "All Winners"
         (alter normalise_header "All Signups" w))).
  { destruct (get_sheet "All Winners" w) as [winners_sheet|] eqn:Hws.
    - apply get_sheet_inv in Hws as [-> _].
      by rewrite get_all_records_safe_eq, ws_read_alter_ne.
    - unfold get_sheet in Hws. unfold ws_read.
      destruct (w !! "All Winners") eqn:E; [done|]. simpl.
      by rewrite (alter_absent _ "All Winners") by (by rewrite lookup_alter_ne). }
  rewrite Hwin, (free_to_run_winners _ _ Hfree).
  unfold dict_item. rewrite Hoffice. unfold add_signup.
  rewrite !get_sheet_alter, (get_sheet_Some _ _ _ Hsh).
  rewrite !get_current_cycle_alter by done.
  by destruct (get_current_cycle w).
Qed.

(** X13. When the cycle is unreadable, [seat_callback] still answers that the
    candidate signed up, although [add_signup] has written no row. *)
Theorem seat_callback_without_cycle user_id state name party view seat_id w
    selected office :
  is_Some (w !! "All Signups") →
  free_to_run user_id w →
  List.find (λ s, bool_decide (dict_get s "Seat ID" blank = VStr seat_id))
    (view_seats view) = Some selected →
  selected !! "Office" = Some office →
  get_current_cycle w = None →
  (seat_callback "All Signups" user_id state name party view seat_id w).1
  = Say (name +:+ " signed up for " +:+ seat_id +:+ " ("
         +:+ py_str office +:+ ") in " +:+ state +:+ " as " +:+ party +:+ "!")
  ∧ data_rows_kept w
      (seat_callback "All Signups" user_id state name party view seat_id w).2.
Proof.
  intros Hsh Hfree Hfind Hoffice Hcyc.
  rewrite (seat_callback_run _ _ _ _ _ _ _ selected office) by done.
  rewrite Hcyc. split; [done|]. cbn [snd].
  eapply data_rows_kept_trans; apply data_rows_kept_normalise.
Qed.

(** X14. A successful signup: for a user who is free to run, on a seat of the
    view, with a readable cycle, [seat_callback] appends to the signups
    worksheet the row of the candidate, in the current phase and with 0
    corruption, 100 stamina, 0 points and no status, whether signups are
    open or not; the other worksheets keep their data rows. When the
    signups worksheet is a table under the signup headers, the user is
    from then on turned down by [signup]. *)
Theorem seat_callback_signs_up user_id state name party view seat_id w
    (sh : Sheet) selected office (cycle : Cycle) :
  w !! "All Signups" = Some sh →
  free_to_run user_id w →
  List.find (λ s, bool_decide (dict_get s "Seat ID" blank = VStr seat_id))
    (view_seats view) = Some selected →
  selected !! "Office" = Some office →
  get_current_cycle w = Some cycle →
  let after :=
    seat_callback "All Signups" user_id state name party view seat_id w in
  after.1
  = Say (name +:+ " signed up for " +:+ seat_id +:+ " ("
         +:+ py_str office +:+ ") in " +:+ state +:+ " as " +:+ party +:+ "!")
  ∧ ws_read "All Signups" after.2
    = normalise_header sh
        ++ [[VInt user_id; VStr name; VStr seat_id; VStr party;
             VStr (phase cycle); office; VInt 0; VInt 100; VInt 0; VStr ""]]
  ∧ (∀ s, s ≠ "All Signups" →
          length (ws_read s after.2) = length (ws_read s w)
          ∧ tail (ws_read s after.2) = tail (ws_read s w))
  ∧ (table signup_names sh →
     has_open_record user_id after.2
     ∧ ∀ state' name' party',
         (signup user_id state' name' party' after.2).1
         = Say "You are already signed up! Use `/withdraw` to cancel your current candidacy.").
Proof.
  intros Hsh Hfree Hfind Hoffice Hcyc after. subst after.
  rewrite (seat_callback_run _ _ _ _ _ _ _ selected office) by eauto.
  rewrite Hcyc. cbv zeta. cbn [fst snd].
  set (row := signup_row user_id name seat_id party (phase cycle) office).
  assert (Hread :
    ws_read "All Signups"
      (alter (append_row row) "All Signups"
         (alter normalise_header "All Winners"
            (alter normalise_header "All Signups" w)))
    = normalise_header sh ++ [row]).
  { rewrite ws_read_alter_eq.
    - rewrite ws_read_alter_ne, ws_read_normalise_eq by done.
      by rewrite (ws_read_lookup _ _ _ Hsh).
    - rewrite lookup_alter_ne, lookup_alter_eq, Hsh by done. eauto. }
  split; [done|]. split; [|split].
  - by rewrite Hread.
  - intros s Hne. rewrite ws_read_alter_ne by done.
    pose proof (data_rows_kept_trans _ _ _
                  (data_rows_kept_normalise "All Signups" w)
                  (data_rows_kept_normalise "All Winners" _)) as Hk.
    apply Hk.
  - intros (rows & -> & Hfit).
    assert (Hrecs :
      records_in (normalise_header (map VStr signup_names :: rows) ++ [row])
      = map (dict_zip signup_names) (rows ++ [row])).
    { rewrite (table_normalise signup_names signup_names_clean) by done.
      apply (table_records signup_names signup_names_clean (rows ++ [row])).
      apply Forall_app. split; [done|]. by repeat constructor. }
    assert (Hopen : open_record user_id (dict_zip signup_names row)).
    { unfold open_record, is_user, dict_get.
      rewrite (table_lookup _ signup_names_clean row "User ID" 0) by done.
      rewrite (table_lookup _ signup_names_clean row "Winner" 9) by done.
      simpl. split; [by rewrite bool_decide_true|].
      intros Hin. by repeat (apply elem_of_cons in Hin as [?|Hin]);
        try apply elem_of_nil in Hin. }
    assert (Hin : dict_zip signup_names row
                  ∈ map (dict_zip signup_names) (rows ++ [row])).
    { apply list_elem_of_fmap. exists row. split; [done|].
      apply elem_of_app. right. by left. }
    split.
    + exists (dict_zip signup_names row). split; [done|]. left.
      by rewrite Hread, Hrecs.
    + intros state' name' party'.
      unfold signup, handle, signup_body. py_unfold.
      rewrite get_sheet_alter, get_sheet_alter, get_sheet_alter.
      rewrite (get_sheet_Some _ _ _ Hsh), get_all_records_safe_eq.
      rewrite Hread, Hrecs.
      rewrite (existsb_elem _ _ _ Hin); [done|].
      by apply open_record_signups.
Qed.

End SeatCallback.

(** ** Withdrawals *)

Section Withdrawals.
Context (user_id : Z) (character_name : string).
Implicit Types (w : World) (records : list RowDict) (i k : nat)
  (record : RowDict) (sheet : string).






End Withdrawals.

Section WithdrawRuns.
Context (user_id : Z) (character_name : string).
Implicit Types (w : World) (sh : Sheet) (records : list RowDict) (i k : nat)
  (record : RowDict).






End WithdrawRuns.

Section SignupWithdraw.
Implicit Types (w : World) (user_id : Z) (state name party seat_id : string)
  (rows : list Row).


End SignupWithdraw.

(** ** Handlers that only read, and the poll of a state *)

Section StatePolls.
Implicit Types (w : World) (cycle : Cycle) (sheet scope : string).

(** X19. [signup] and [poll] append no row and change no data row, whatever
    they are asked and whatever they answer: of every worksheet they leave
    all the rows under the header row as they were. *)
Theorem commands_keep_data_rows w :
  (∀ (user_id : Z) (state name party : string),
     data_rows_kept w (signup user_id state name party w).2)
  ∧ ∀ scope, data_rows_kept w (poll scope w).2.
Proof.
  split; [intros; apply signup_reads_only|]. intros scope.
  unfold poll, handle, poll_body. py_unfold.
  destruct (get_current_cycle w) as [cycle|]; [|apply data_rows_kept_refl].
  destruct (sheet_for_phase cycle w) as [sheet|]; [|apply data_rows_kept_refl].
  rewrite get_all_records_safe_eq.
  assert (Hk := data_rows_kept_normalise sheet w).
  case_bool_decide.
  - destruct (List.filter _ _) as [|c cs]; [done|].
    destruct (total_of (c :: cs)) as [t|]; [|done].
    destruct (bool_decide (t = 0)); [done|].
    by destruct (py_map (poll_line t) (c :: cs)).
  - destruct (py_filter _ _) as [[|c cs]|]; [done| |done].
    destruct (total_of (c :: cs)) as [t|]; [|done].
    destruct (bool_decide (t = 0)); [done|].
    by destruct (py_map (poll_line t) (c :: cs)).
Qed.


End StatePolls.

(** ** The outcome of the tally *)

Section Maximum.
Implicit Types (candidates : list RowDict) (best winner c : RowDict) (k : nat).

Lemma py_gt_points c best (p q : Z) :
  points_of c = Some p → points_of best = Some q →
  py_gt (dict_get c "Points" (VInt 0)) (dict_get best "Points" (VInt 0))
  = Ok (bool_decide (q < p)).
Proof.
  unfold points_of.
  destruct (dict_get c "Points" (VInt 0)), (dict_get best "Points" (VInt 0));
    try done.
  by intros [= ->] [= ->].
Qed.

(** [py_max_from] keeps the best so far unless a candidate has strictly
    more points. *)
Lemma py_max_from_spec candidates :
  ∀ best (q : Z),
    points_of best = Some q →
    Forall (λ c, is_Some (points_of c)) candidates →
    ∃ winner (m : Z),
      py_max_from best candidates = Ok winner
      ∧ points_of winner = Some m
      ∧ (q ≤ m)%Z
      ∧ Forall (λ c, ∃ p : Z, points_of c = Some p ∧ (p ≤ m)%Z) candidates
      ∧ ((winner = best ∧ m = q)
         ∨ ∃ k, candidates !! k = Some winner ∧ (q < m)%Z
                ∧ Forall (λ c, ∃ p : Z, points_of c = Some p ∧ (p < m)%Z)
                    (take k candidates)).
Proof.
  induction candidates as [|c candidates IH]; intros best q Hq Hall.
  { exists best, q. split; [done|]. split; [done|]. split; [lia|].
    split; [constructor|by left]. }
  apply Forall_cons in Hall as [[p Hp] Hall].
  cbn [py_max_from]. rewrite (py_gt_points c best p q) by done.
  cbn [mbind Outcome_bind].
  case_bool_decide as Hlt.
  - destruct (IH c p Hp Hall) as (winner & m & Hmax & Hm & Hle & Hbound & Hpos).
    exists winner, m. split; [done|]. split; [done|]. split; [lia|].
    split; [constructor; [exists p; split; [done|lia]|done]|].
    right. destruct Hpos as [[-> ->]|(k & Hk & Hlt' & Hbefore)].
    + exists 0%nat. split; [done|]. split; [done|]. constructor.
    + exists (S k). split; [done|]. split; [lia|]. simpl.
      constructor; [exists p; split; [done|lia]|done].
  - destruct (IH best q Hq Hall)
      as (winner & m & Hmax & Hm & Hle & Hbound & Hpos).
    exists winner, m. split; [done|]. split; [done|]. split; [done|].
    split; [constructor; [exists p; split; [done|lia]|done]|].
    destruct Hpos as [[-> ->]|(k & Hk & Hlt' & Hbefore)]; [by left|].
    right. exists (S k). split; [done|]. split; [done|]. simpl.
    constructor; [exists p; split; [done|lia]|done].
Qed.

(** X21. The winner that the tally picks among candidates whose points are
    numbers is one of them, no candidate has more points, and every
    candidate before the winner has strictly fewer: a tie goes to the
    candidate of the earliest row. *)
Theorem py_max_points_spec candidates :
  candidates ≠ [] →
  Forall (λ c, is_Some (points_of c)) candidates →
  ∃ winner k (m : Z),
    py_max_points candidates = Ok winner
    ∧ candidates !! k = Some winner
    ∧ points_of winner = Some m
    ∧ Forall (λ c, ∃ p : Z, points_of c = Some p ∧ (p ≤ m)%Z) candidates
    ∧ Forall (λ c, ∃ p : Z, points_of c = Some p ∧ (p < m)%Z)
        (take k candidates).
Proof.
  intros Hne Hall. destruct candidates as [|c candidates]; [done|].
  apply Forall_cons in Hall as [[q Hq] Hall].
  destruct (py_max_from_spec candidates c q Hq Hall)
    as (winner & m & Hmax & Hm & Hle & Hbound & Hpos).
  destruct Hpos as [[-> ->]|(k & Hk & Hlt & Hbefore)].
  - exists c, 0%nat, q. do 3 (split; [done|]). split; [|constructor].
    constructor; [exists q; split; [done|lia]|done].
  - exists winner, (S k), m. do 3 (split; [done|]). split.
    + constructor; [exists q; split; [done|lia]|done].
    + simpl. constructor; [by exists q|done].
Qed.

End Maximum.

Section TallyWrites.
Implicit Types (w : World) (sheet : string) (records : list RowDict)
  (races : list ((Cell * Cell) * list RowDict)).

Lemma status_only_refl sheet w : status_only sheet w w.
Proof. by repeat split. Qed.

Lemma status_only_trans sheet w1 w2 w3 :
  status_only sheet w1 w2 → status_only sheet w2 w3 → status_only sheet w1 w3.
Proof.
  intros (Ha & Hb & Hc) (Ha' & Hb' & Hc'). split; [|split].
  - intros s Hs. by rewrite Ha', Ha.
  - by rewrite Hb', Hb.
  - intros i j Hj. by rewrite Hc', Hc.
Qed.

Lemma status_only_write sheet (i : nat) (v : Cell) w :
  (0 < i)%nat → status_only sheet w (alter (update_cell i 10 v) sheet w).
Proof.
  intros Hi. split; [|split].
  - intros s Hs. by rewrite lookup_alter_ne.
  - rewrite lookup_alter_eq. by rewrite fmap_is_Some.
  - intros i' j Hj. destruct (w !! sheet) as [sh|] eqn:Hsh.
    + rewrite ws_read_alter_eq by eauto.
      apply cell_at_update_cell_ne; [done|]. right.
      destruct j as [|[|j]]; simpl; lia.
    + by rewrite alter_absent.
Qed.

Lemma mark_race_status_only sheet (seat_id party : Cell) (winner : RowDict)
    records :
  ∀ (i n : nat) w,
    (0 < i)%nat →
    status_only sheet w
      (mark_race sheet seat_id party winner i records n w).2.
Proof.
  induction records as [|r rest IH]; intros i n w Hi;
    [apply status_only_refl|].
  cbn [mark_race]. destruct (_ && _ && _); [|by apply IH; lia].
  py_unfold. unfold ws_write.
  case_bool_decide.
  - pose proof (IH (S i) (S n) (alter (update_cell i 10 (VStr "Winner")) sheet w)
                  ltac:(lia)) as Hrest.
    destruct (mark_race _ _ _ _ (S i) rest (S n) _) as [o w'].
    eapply status_only_trans; [by apply status_only_write|done].
  - pose proof (IH (S i) n (alter (update_cell i 10 (VStr "Loser")) sheet w)
                  ltac:(lia)) as Hrest.
    destruct (mark_race _ _ _ _ (S i) rest n _) as [o w'].
    eapply status_only_trans; [by apply status_only_write|done].
Qed.

Lemma declare_races_status_only sheet records races :
  ∀ (n : nat) w,
    status_only sheet w (declare_races sheet records races n w).2.
Proof.
  induction races as [|[[seat_id party] candidates] rest IH]; intros n w;
    [apply status_only_refl|].
  cbn [declare_races]. destruct candidates as [|c cs]; [apply IH|].
  py_unfold. destruct (py_max_points (c :: cs)) as [winner|e];
    [|apply status_only_refl].
  pose proof (mark_race_status_only sheet seat_id party winner records 2 n w
                ltac:(lia)) as Hmark.
  destruct (mark_race _ _ _ _ 2 records n w) as [[n'|e] w1]; [|done].
  pose proof (IH n' w1) as Hrest.
  destruct (declare_races sheet records rest n' w1) as [o w2].
  by eapply status_only_trans.
Qed.

Lemma tally_winners_run w (sh : Sheet) :
  w !! "All Signups" = Some sh →
  tally_winners true w
  = match declare_races "All Signups" (records_in sh)
            (group_races (records_in sh)) 0
            (alter normalise_header "All Signups" w) with
    | (Ok winners_declared, w') =>
        (Say ("Tallying complete! " +:+ pretty winners_declared
              +:+ " winners declared across all seats and parties."), w')
    | (Raised _, w') =>
        (Say "An error occurred while tallying winners. Please try again or contact an admin.",
         w')
    end.
Proof.
  intros Hsh. unfold tally_winners, handle, tally_winners_body. py_unfold.
  rewrite (get_sheet_Some _ _ _ Hsh), get_all_records_safe_eq.
  rewrite (ws_read_lookup _ _ _ Hsh).
  by destruct (declare_races _ _ _ _ _) as [[?|?] ?].
Qed.

(** X22. [tally_winners] writes statuses only: whoever runs it and whatever
    it answers, it leaves every other worksheet as it was and, in the
    signups worksheet, every cell under the header row that is not in
    column 10. *)
Theorem tally_winners_writes_status_only (administrator : bool) w :
  (∀ s, s ≠ "All Signups" → (tally_winners administrator w).2 !! s = w !! s)
  ∧ ∀ i j, (2 ≤ i)%nat → j ≠ 10%nat →
           cell_at i j (ws_read "All Signups" (tally_winners administrator w).2)
           = cell_at i j (ws_read "All Signups" w).
Proof.
  destruct administrator; [|done].
  destruct (w !! "All Signups") as [sh|] eqn:Hsh.
  2:{ unfold tally_winners, handle, tally_winners_body. py_unfold.
      unfold get_sheet. by rewrite Hsh. }
  rewrite (tally_winners_run w sh Hsh).
  set (w1 := alter normalise_header "All Signups" w).
  pose proof (declare_races_status_only "All Signups" (records_in sh)
                (group_races (records_in sh)) 0 w1)
    as (Hother & _ & Hcells).
  destruct (declare_races _ _ _ _ w1) as [[n|e] w2]; cbn [fst snd] in *.
  - split.
    + intros s Hne. rewrite Hother by done. unfold w1.
      by rewrite lookup_alter_ne.
    + intros i j Hi Hj. rewrite Hcells by done. unfold w1.
      rewrite ws_read_normalise_eq. by apply cell_at_normalise_header.
  - split.
    + intros s Hne. rewrite Hother by done. unfold w1.
      by rewrite lookup_alter_ne.
    + intros i j Hi Hj. rewrite Hcells by done. unfold w1.
      rewrite ws_read_normalise_eq. by apply cell_at_normalise_header.
Qed.

End TallyWrites.

Section GroupingSpec.
Implicit Types (records : list RowDict) (record r : RowDict)
  (key k : Cell * Cell) (keys : list (Cell * Cell)).



Lemma filter_none {A} (f : A → bool) (l : list A) :
  (∀ x, x ∈ l → f x = false) → List.filter f l = [].
Proof.
  induction l as [|x l IH]; intros H; [done|]. simpl.
  rewrite (H x) by left. apply IH. intros y Hy. apply H. by right.
Qed.





End GroupingSpec.

Section TallySpec.
Context (names : list string).
Hypothesis Hclean : clean_names names.
Hypothesis Hwinner : names !! 9%nat = Some "Winner".
Implicit Types (w : World) (rows stale cur : list Row) (row s : Row)
  (key : Cell * Cell) (keys : list (Cell * Cell)) (records : list RowDict).








End TallySpec.

Section TallyDecides.
Context (names : list string).
Hypothesis Hclean : clean_names names.
Hypothesis Hwinner : names !! 9%nat = Some "Winner".
Implicit Types (w : World) (rows : list Row) (row : Row).



End TallyDecides.

(** ** The rows of the transfer *)

Section Transfer.
Implicit Types (w : World) (cycle : Cycle) (records winners_records : list RowDict)
  (sheet : string).




End Transfer.

Section Districts.
Implicit Types (s p last : string) (a c : ascii).

Lemma split_length c s : length (PyStr.split c s) = S (count_char c s).
Proof.
  induction s as [|a s IH]; [done|]. simpl.
  destruct (Ascii.eqb a c); simpl; [by rewrite IH|].
  destruct (PyStr.split c s); simpl in *; lia.
Qed.

Lemma contains_char_count c s :
  PyStr.contains_char c s = negb (bool_decide (count_char c s = 0%nat)).
Proof.
  induction s as [|a s IH]; [done|]. simpl.
  destruct (Ascii.eqb a c); simpl; [done|]. by rewrite IH.
Qed.

Lemma split_no_sep c s :
  PyStr.contains_char c s = false → PyStr.split c s = [s].
Proof.
  induction s as [|a s IH]; [done|]. simpl.
  destruct (Ascii.eqb a c); simpl; [done|]. intros H. by rewrite IH.
Qed.

(** The parts of a string that ends with a separator and a last part. *)
Lemma split_last_part c p last :
  PyStr.contains_char c last = false →
  PyStr.split c (p +:+ String c last) = PyStr.split c p ++ [last].
Proof.
  intros Hlast. induction p as [|a p IH].
  - change ("" +:+ String c last) with (String c last). simpl.
    by rewrite Ascii.eqb_refl, split_no_sep.
  - rewrite str_app_cons. simpl. rewrite IH.
    destruct (Ascii.eqb a c); [done|].
    pose proof (split_length c p) as Hlen.
    by destruct (PyStr.split c p).
Qed.

Lemma count_char_app c p s :
  count_char c (p +:+ s) = (count_char c p + count_char c s)%nat.
Proof.
  induction p as [|a p IH]; [done|]. rewrite str_app_cons. simpl.
  rewrite IH. lia.
Qed.

(** X25. The district that [transfer_winners] derives from a seat
    identifier: the text after the last dash, behind the word District,
    when the identifier has two dashes or more; nothing when it has fewer;
    a seat identifier that is a number raises [TypeError]. *)
Theorem district_of_spec :
  (∀ z : Z, district_of (VInt z) = Raised TypeError)
  ∧ (∀ s, (count_char "-" s < 2)%nat → district_of (VStr s) = Ok "")
  ∧ (∀ p last,
       (1 ≤ count_char "-" p)%nat →
       PyStr.contains_char "-" last = false →
       district_of (VStr (p +:+ "-" +:+ last)) = Ok ("District " +:+ last)).
Proof.
  split; [done|]. split.
  - intros s Hcount. unfold district_of.
    destruct (PyStr.contains_char "-" s); [|done].
    rewrite split_length. by rewrite bool_decide_false by lia.
  - intros p last Hp Hlast. unfold district_of.
    change ("-" +:+ last) with (String "-" last).
    rewrite contains_char_count, count_char_app. simpl.
    rewrite bool_decide_false by lia. simpl.
    rewrite split_last_part by done.
    rewrite length_app, split_length. simpl.
    rewrite bool_decide_true by lia.
    by rewrite last_last.
Qed.

End Districts.

(** ** Terms of the seats, and the search of a user *)

Section Terms.
Implicit Types (w : World) (sh : Sheet) (seat_id : Cell) (records : list RowDict)
  (i k : nat).






End Terms.

Section FindUser.
Implicit Types (w : World) (sheets : list string) (records : list RowDict)
  (i : nat).




End FindUser.

(** ** Cells that are not numbers, and the closing of the signups *)

Section TextCells.
Context (user_id : Z) (cost lo hi : Z) (verb : string) (entropy : Z)
  (apology : string).
Implicit Types (w : World) (cycle : Cycle) (sheet : string) (record : RowDict).




End TextCells.


Section Closing.
Implicit Types (w : World) (sh : Sheet) (user_id : Z).

Lemma free_to_run_alter (f : Sheet → Sheet) (sheet : string) user_id w :
  sheet ≠ "All Signups" → sheet ≠ "All Winners" →
  free_to_run user_id w → free_to_run user_id (alter f sheet w).
Proof.
  intros Hs Hw Hfree. unfold free_to_run.
  by rewrite !ws_read_alter_ne by done.
Qed.

Lemma update_signups_status_run (status : bool) w sh :
  w !! "Cycles" = Some sh →
  update_signups_status status w
  = (Ok (),
     alter (update_cell 3 7 (VStr (PyStr.upper (PyStr.of_bool status))))
       "Cycles" w).
Proof.
  intros Hsh. unfold update_signups_status.
  by rewrite (get_sheet_Some _ _ _ Hsh).
Qed.

Lemma cycle_after_status (status : bool) w sh (y : Z) :
  w !! "Cycles" = Some sh →
  match acell G2 sh with None => Some 1990 | Some v => PyStr.to_int v end
    = Some y →
  get_current_cycle
    (alter (update_cell 3 7 (VStr (PyStr.upper (PyStr.of_bool status))))
       "Cycles" w)
  = Some {| year := y; signups_open := status;
            phase := default "Primary" (acell G4 sh) |}.
Proof.
  intros Hsh Hy.
  rewrite (get_current_cycle_Some _
             (update_cell 3 7 (VStr (PyStr.upper (PyStr.of_bool status))) sh)
             y (PyStr.upper (PyStr.of_bool status))).
  - rewrite status_text_round_trip.
    by rewrite (acell_update_cell_ne 3 7 G4) by (simpl; lia).
  - by rewrite lookup_alter_eq, Hsh.
  - by rewrite (acell_update_cell_ne 3 7 G2) by (simpl; lia).
  - change G3 with (3, 7)%nat.
    apply acell_update_cell_eq; [lia|lia|by destruct status].
Qed.

(** X29. Once an administrator has closed the signups, a user who is free to
    run is told that signups are closed; a user without the administrator
    permission changes nothing with [close_signups] or [open_signups]. The
    Cycles worksheet has to be there, with a year that can be read. *)
Theorem close_signups_closes user_id (state name party : string) w sh (y : Z) :
  w !! "Cycles" = Some sh →
  match acell G2 sh with None => Some 1990 | Some v => PyStr.to_int v end
    = Some y →
  is_Some (w !! "All Signups") →
  free_to_run user_id w →
  (close_signups true w).1 = Say "Election signups are now CLOSED! 🚫"
  ∧ (signup user_id state name party (close_signups true w).2).1
    = Say "Signups are closed!"
  ∧ close_signups false w = (Say not_admin, w)
  ∧ open_signups false w = (Say not_admin, w).
Proof.
  intros Hsh Hy Hsignups Hfree.
  unfold close_signups, handle. py_unfold.
  rewrite (update_signups_status_run false w sh Hsh). cbn [fst snd].
  split; [done|]. split; [|done].
  apply signup_not_open.
  - by rewrite lookup_alter_ne.
  - by apply free_to_run_alter.
  - right. eexists. split; [by apply cycle_after_status|done].
Qed.

End Closing.

(** ** After the primaries *)

Section GeneralPhase.
Implicit Types (w : World) (cycle : Cycle) (rows : list Row) (user_id : Z).

Lemma winners_names_clean : clean_names winners_names.
Proof. split; [reflexivity|]. apply (bool_decide_unpack _). by vm_compute. Qed.

Lemma pretty_Z_nonempty (z : Z) : pretty z ≠ "".
Proof.
  intros H. pose proof (to_int_pretty z) as Hint. by rewrite H in Hint.
Qed.

(** The phase that [get_current_cycle] reads is never the empty string. *)
Lemma get_current_cycle_phase w cycle :
  get_current_cycle w = Some cycle → phase cycle ≠ "".
Proof.
  unfold get_current_cycle.
  destruct (get_sheet "Cycles" w) as [cycles_sheet|]; [|done].
  intros H. apply bind_Some in H as (y & _ & H).
  apply bind_Some in H as (g3 & _ & [= <-]). simpl.
  destruct (acell G4 (ws_read cycles_sheet w)) as [g4|] eqn:E; [|done].
  simpl. unfold acell in E. by destruct (py_str _); simplify_eq.
Qed.

(** The records of the rows that [transfer_winners] writes belong to no
    user and to no phase. *)
Lemma winners_record_nobody (row : Row) user_id cycle :
  phase cycle ≠ "" →
  signed_up user_id (dict_zip winners_names row) = false
  ∧ in_phase cycle (dict_zip winners_names row) = false.
Proof.
  intros Hphase. unfold signed_up, is_user, in_phase, dict_get.
  rewrite (dict_zip_absent winners_names row "User ID")
    by (apply (bool_decide_unpack _); by vm_compute).
  rewrite (dict_zip_absent winners_names row "Phase")
    by (apply (bool_decide_unpack _); by vm_compute).
  simpl. split.
  - rewrite bool_decide_false; [done|].
    intros H. by apply (pretty_Z_nonempty user_id).
  - rewrite bool_decide_false; [done|]. intros [= H]. by apply Hphase.
Qed.

(** X30. After the primaries nobody can campaign and nobody is polled. In a
    phase other than Primary the handlers read the winners worksheet, and
    the rows that [transfer_winners] writes under its headers carry neither
    a User ID nor a Phase: [rally] and [canvassing] answer every user that
    they are not signed up, and the national poll finds no candidate. *)
Theorem general_phase_finds_nobody user_id (entropy : Z) w cycle rows :
  get_current_cycle w = Some cycle →
  phase cycle ≠ "Primary" →
  w !! "All Winners" = Some (winners_headers :: rows) →
  Forall (λ r : list Cell, length r = 11%nat) rows →
  rally user_id entropy w
  = (Say "You are not signed up or have withdrawn.", w)
  ∧ canvassing user_id entropy w
    = (Say "You are not signed up or have withdrawn.", w)
  ∧ poll "nation" w = (Say "No candidates to poll.", w).
Proof.
  intros Hc Hphase Hsh Hfit.
  change winners_headers with (map VStr winners_names) in Hsh.
  assert (Hs : sheet_for_phase cycle w = Some "All Winners").
  { unfold sheet_for_phase. rewrite bool_decide_false by done.
    by rewrite (get_sheet_Some _ _ _ Hsh). }
  assert (Hrecs : records_in (ws_read "All Winners" w)
                  = map (dict_zip winners_names) rows).
  { rewrite (ws_read_lookup _ _ _ Hsh).
    by apply (table_records winners_names winners_names_clean). }
  assert (Hsame : alter normalise_header "All Winners" w = w).
  { apply alter_id. intros sh Hsh'.
    assert (sh = map VStr winners_names :: rows) as -> by congruence.
    by apply (table_normalise winners_names winners_names_clean). }
  pose proof (get_current_cycle_phase w cycle Hc) as Hne.
  assert (Hnone : found_record user_id (records_in (ws_read "All Winners" w))
                  = None).
  { rewrite Hrecs. unfold found_record. apply list_find_None.
    apply Forall_fmap, Forall_forall. intros row _.
    change (¬ signed_up user_id (dict_zip winners_names row)).
    rewrite (proj1 (winners_record_nobody row user_id cycle Hne)).
    by intros []. }
  split; [|split].
  - unfold rally.
    rewrite (action_not_signed_up _ _ _ _ _ _ _ w cycle "All Winners")
      by done.
    by rewrite Hsame.
  - unfold canvassing.
    rewrite (action_not_signed_up _ _ _ _ _ _ _ w cycle "All Winners")
      by done.
    by rewrite Hsame.
  - unfold poll, handle.
    rewrite (poll_nation_run w cycle "All Winners") by done.
    rewrite Hsame, Hrecs. unfold national.
    rewrite filter_none; [done|].
    intros record Hin. apply list_elem_of_fmap in Hin as (row & -> & _).
    by destruct (winners_record_nobody row user_id cycle Hne) as [_ ->].
Qed.

End GeneralPhase.

(** ** The properties on the sample spreadsheets *)

Lemma retry_returns_first_success_witness :
  retry_api_call flaky 3 1 = mkRetry (Returned 7) 2 (backoff 1 1)
  ∧ Zsum (backoff 1 1) = 1 * (2 ^ Z.of_nat 1 - 1).
Proof.
  apply (retry_returns_first_success flaky 3 1); [lia|lia| |reflexivity].
  intros j Hj. assert (j = 0%nat) as -> by lia.
  eexists. split; reflexivity.
Defined.

Lemma retry_gives_up_witness :
  retry_api_call overloaded 3 1
  = mkRetry (ReRaised "Quota exceeded for quota metric") 3 (backoff 1 2).
Proof.
  apply (retry_gives_up overloaded 3 1); [lia|reflexivity| |reflexivity].
  intros j Hj. eexists. split; reflexivity.
Defined.

Lemma retry_stops_on_authentication_witness :
  retry_api_call unauthorised 3 1 = mkRetry AuthenticationError 1 (backoff 1 0).
Proof.
  apply (retry_stops_on_authentication unauthorised 3 1
           ltac:(lia) 0 "Request had Invalid Authentication credentials.");
    [lia| |reflexivity|reflexivity].
  intros j Hj. lia.
Defined.

Lemma retry_calls_bounded_witness :
  retry_api_call flaky 3 1 = retry_api_call flaky_then_down 3 1
  ∧ (Z.of_nat (calls (retry_api_call flaky 3 1)) ≤ Z.max 3 0)%Z
  ∧ ((3 ≤ 0)%Z → retry_api_call flaky 3 1 = mkRetry ReturnedNone 0 []).
Proof.
  apply (retry_calls_bounded flaky flaky_then_down 3 1).
  intros j Hj. unfold flaky_then_down. rewrite bool_decide_true; [done|lia].
Defined.

Lemma cycle_fields_round_trip_witness :
  (∀ new_year : Z,
     get_current_cycle (update_cycle_year new_year ava_signed_up).2
     = Some {| year := new_year;
               signups_open := bool_decide (PyStr.lower "TRUE" = "true");
               phase := default "Primary" (acell G4 cycles_2024) |})
  ∧ (∀ (new_phase : string) y,
       match acell G2 cycles_2024 with
       | None => Some 1990
       | Some v => PyStr.to_int v
       end = Some y →
       get_current_cycle (update_phase new_phase ava_signed_up).2
       = Some {| year := y;
                 signups_open := bool_decide (PyStr.lower "TRUE" = "true");
                 phase := if decide (new_phase = "") then "Primary"
                          else new_phase |}).
Proof.
  apply (cycle_fields_round_trip ava_signed_up cycles_2024 "TRUE");
    reflexivity.
Defined.

Lemma get_all_records_safe_twice_witness :
  get_all_records_safe "All Signups"
    (get_all_records_safe "All Signups" two_notes).2
  = get_all_records_safe "All Signups" two_notes.
Proof.
  apply (get_all_records_safe_twice "All Signups" two_notes).
  apply (bool_decide_unpack _). by vm_compute.
Defined.


Lemma signup_closed_witness :
  (get_current_cycle signups_closed = None →
   (signup 7 "Austin" "Dan" "Independent" signups_closed).1
   = Say "Error accessing cycle data.")
  ∧ (∀ cycle, get_current_cycle signups_closed = Some cycle →
              signups_open cycle = false →
     (signup 7 "Austin" "Dan" "Independent" signups_closed).1
     = Say "Signups are closed!").
Proof.
  apply (signup_closed 7 "Austin" "Dan" "Independent" signups_closed).
  - by eexists.
  - by apply free_to_run_intro.
Defined.

Lemma close_signups_closes_witness :
  (close_signups true ava_signed_up).1
  = Say "Election signups are now CLOSED! 🚫"
  ∧ (signup 7 "Austin" "Dan" "Independent"
       (close_signups true ava_signed_up).2).1
    = Say "Signups are closed!"
  ∧ close_signups false ava_signed_up = (Say not_admin, ava_signed_up)
  ∧ open_signups false ava_signed_up = (Say not_admin, ava_signed_up).
Proof.
  apply (close_signups_closes 7 "Austin" "Dan" "Independent" ava_signed_up
           cycles_2024 2024).
  - reflexivity.
  - reflexivity.
  - by eexists.
  - by apply free_to_run_intro.
Defined.

Lemma seat_callback_signs_up_witness :
  let after :=
    seat_callback "All Signups" 7 "Austin" "Dan" "Independent" senate_view
      "SEN-AU-1" ava_signed_up in
  after.1
  = Say ("Dan" +:+ " signed up for " +:+ "SEN-AU-1" +:+ " ("
         +:+ py_str (VStr "Senate") +:+ ") in " +:+ "Austin" +:+ " as "
         +:+ "Independent" +:+ "!")
  ∧ ws_read "All Signups" after.2
    = normalise_header [signup_headers; ava_running]
        ++ [[VInt 7; VStr "Dan"; VStr "SEN-AU-1"; VStr "Independent";
             VStr (phase primary_2024); VStr "Senate"; VInt 0; VInt 100;
             VInt 0; VStr ""]]
  ∧ (∀ s, s ≠ "All Signups" →
          length (ws_read s after.2) = length (ws_read s ava_signed_up)
          ∧ tail (ws_read s after.2) = tail (ws_read s ava_signed_up))
  ∧ (table signup_names [signup_headers; ava_running] →
     has_open_record 7 after.2
     ∧ ∀ state' name' party',
         (signup 7 state' name' party' after.2).1
         = Say "You are already signed up! Use `/withdraw` to cancel your current candidacy.").
Proof.
  apply (seat_callback_signs_up 7 "Austin" "Dan" "Independent" senate_view
           "SEN-AU-1" ava_signed_up [signup_headers; ava_running] senate_seat
           (VStr "Senate") primary_2024).
  - reflexivity.
  - by apply free_to_run_intro.
  - reflexivity.
  - reflexivity.
  - reflexivity.
Defined.

Lemma seat_callback_without_cycle_witness :
  (seat_callback "All Signups" 7 "Austin" "Dan" "Independent" senate_view
     "SEN-AU-1" no_cycles).1
  = Say ("Dan" +:+ " signed up for " +:+ "SEN-AU-1" +:+ " ("
         +:+ py_str (VStr "Senate") +:+ ") in " +:+ "Austin" +:+ " as "
         +:+ "Independent" +:+ "!")
  ∧ data_rows_kept no_cycles
      (seat_callback "All Signups" 7 "Austin" "Dan" "Independent" senate_view
         "SEN-AU-1" no_cycles).2.
Proof.
  apply (seat_callback_without_cycle 7 "Austin" "Dan" "Independent"
           senate_view "SEN-AU-1" no_cycles senate_seat (VStr "Senate")).
  - by eexists.
  - by apply free_to_run_intro.
  - reflexivity.
  - reflexivity.
  - reflexivity.
Defined.






Lemma py_max_points_spec_witness :
  ∃ winner k (m : Z),
    py_max_points (map (dict_zip signup_names) [ava_5; ava_10; bo_running])
    = Ok winner
    ∧ map (dict_zip signup_names) [ava_5; ava_10; bo_running] !! k
      = Some winner
    ∧ points_of winner = Some m
    ∧ Forall (λ c, ∃ p : Z, points_of c = Some p ∧ (p ≤ m)%Z)
        (map (dict_zip signup_names) [ava_5; ava_10; bo_running])
    ∧ Forall (λ c, ∃ p : Z, points_of c = Some p ∧ (p < m)%Z)
        (take k (map (dict_zip signup_names) [ava_5; ava_10; bo_running])).
Proof.
  apply (py_max_points_spec
           (map (dict_zip signup_names) [ava_5; ava_10; bo_running])).
  - done.
  - repeat constructor; by eexists.
Defined.



Lemma general_phase_finds_nobody_witness :
  rally 42 0 general_2024
  = (Say "You are not signed up or have withdrawn.", general_2024)
  ∧ canvassing 42 0 general_2024
    = (Say "You are not signed up or have withdrawn.", general_2024)
  ∧ poll "nation" general_2024 = (Say "No candidates to poll.", general_2024).
Proof.
  apply (general_phase_finds_nobody 42 0 general_2024 general_cycle
           [ava_transferred]).
  - reflexivity.
  - done.
  - reflexivity.
  - by repeat constructor.
Defined.


